(** * run_server.py: the plane-detection server's publishers and loop

    A shallow embedding of [src/run_server.py]:
    - [PlaneResultsPublisher.publish], which flattens the detected planes
      into a [PlanesResults] message;
    - [PlanePosePublisher.publish], which turns the first plane's weight
      vector into a [Pose];
    - the body of [main]'s loop, which detects and publishes four messages.

    Numbers are IEEE binary64 values (Python floats, numpy float64), the
    kernel's primitive floats.  Python lists are Rocq lists; an index out of
    range raises [IndexError], a slice never raises. *)

From Stdlib Require Import String List ZArith Lia Bool Floats.
Import ListNotations.


(** ** Python exceptions and the result of a call *)

Inductive Exn : Set :=
| IndexError.

Inductive result (A : Type) : Type :=
| Return (a : A)
| Raise (e : Exn).

Arguments Return {A} a.
Arguments Raise {A} e.

Definition rbind {A B : Type} (m : result A) (k : A -> result B) : result B :=
  match m with
  | Return a => k a
  | Raise e => Raise e
  end.

Declare Scope py_scope.
Delimit Scope py_scope with py.
Notation "x <- m ;; k" := (rbind m (fun x => k))
  (at level 61, m at next level, right associativity) : py_scope.

(** ** Python list operations used by the server *)

Module PyList.

(** [l[lo:hi]] for constants [0 <= lo <= hi]: never raises, truncates. *)
Definition slice {A : Type} (lo hi : nat) (l : list A) : list A :=
  firstn (hi - lo) (skipn lo l).

(** [l[i]] for a constant [i >= 0]: raises [IndexError] out of range. *)
Definition index {A : Type} (l : list A) (i : nat) : result A :=
  match nth_error l i with
  | Some a => Return a
  | None => Raise IndexError
  end.

End PyList.

(** ** numpy operations on one-dimensional float64 arrays *)

Module Np.

(** [a ** 2], elementwise. *)
Definition square (a : list float) : list float :=
  map (fun x => PrimFloat.mul x x) a.

(** [np.sum(a)]: the elements added from the left, starting at 0. *)
Definition sum (a : list float) : float :=
  fold_left PrimFloat.add a PrimFloat.zero.

(** [a / s] for an array [a] and a scalar [s]; a zero divisor raises
    nothing, the quotient follows IEEE 754 (infinity or NaN). *)
Definition div_scalar (a : list float) (s : float) : list float :=
  map (fun x => PrimFloat.div x s) a.

End Np.

(** ** Messages *)

(** [PlaneParam] is declared in [plane_detector], outside [src/]; the server
    reads four array attributes of it and calls [tolist()] on each.  The
    attributes are modelled as lists, of whatever length the detector gives
    them. *)
Module PlaneParam.
Record t : Type := mk {
  w : list float;
  pts_3d_center : list float;
  pts_2d_center : list float;
  mask_color : list Z
}.
End PlaneParam.

Module PlanesResults.
Record t : Type := mk {
  N : nat;
  norms : list float;
  center_3d : list float;
  center_2d : list float;
  mask_color : list Z
}.

(** [PlanesResults()]: every field at its default. *)
Definition new : t := mk 0 [] [] [] [].
End PlanesResults.

(** [geometry_msgs/Pose]: a point and a quaternion, all fields 0.0 in a
    freshly constructed message. *)
Module Pose.
Record Point : Type := mkPoint { x : float; y : float; z : float }.
Record Orientation : Type :=
  mkOrientation { qx : float; qy : float; qz : float; qw : float }.
Record t : Type := mk { position : Point; orientation : Orientation }.

Definition new : t :=
  mk (mkPoint PrimFloat.zero PrimFloat.zero PrimFloat.zero)
     (mkOrientation PrimFloat.zero PrimFloat.zero PrimFloat.zero PrimFloat.zero).
End Pose.

(** ** PlaneResultsPublisher.publish (lines 73-79): the message it builds *)

Module PlaneResultsPublisher.

(** One iteration of [for pp in plane_params]: four [extend] calls. *)
Definition extend (res : PlanesResults.t) (pp : PlaneParam.t) : PlanesResults.t :=
  PlanesResults.mk
    (PlanesResults.N res)
    (PlanesResults.norms res ++ PlaneParam.w pp)
    (PlanesResults.center_3d res ++ PlaneParam.pts_3d_center pp)
    (PlanesResults.center_2d res ++ PlaneParam.pts_2d_center pp)
    (PlanesResults.mask_color res ++ PlaneParam.mask_color pp).

Definition message (plane_params : list PlaneParam.t) : PlanesResults.t :=
  let res := PlanesResults.new in
  let res := PlanesResults.mk (List.length plane_params)
               (PlanesResults.norms res) (PlanesResults.center_3d res)
               (PlanesResults.center_2d res) (PlanesResults.mask_color res) in
  fold_left extend plane_params res.

End PlaneResultsPublisher.

(** ** The numeric libraries behind the pose

    [np.arccos] and [pyquaternion.Quaternion] are third-party code.  The
    server uses one constructor ([Quaternion(axis=..., radians=...)]), the
    product [*] and the accessors [imaginary] and [real]; they are taken as
    an interface of total functions (none raises on a float, NaN included),
    and every statement below holds for each implementation. *)

Class NumericLibs : Type := {
  arccos : float -> float;
  Quaternion : Type;
  Quaternion_axis_radians : float * float * float -> float -> Quaternion;
  Quaternion_mul : Quaternion -> Quaternion -> Quaternion;
  imaginary : Quaternion -> float * float * float;
  real : Quaternion -> float
}.

Definition axis_x : float * float * float := (PrimFloat.one, PrimFloat.zero, PrimFloat.zero).
Definition axis_y : float * float * float := (PrimFloat.zero, PrimFloat.one, PrimFloat.zero).
Definition axis_z : float * float * float := (PrimFloat.zero, PrimFloat.zero, PrimFloat.one).

(** ** PlanePosePublisher.publish (lines 94-128): the message it builds *)

Module PlanePosePublisher.

Section WithLibs.
Context {L : NumericLibs}.

Local Open Scope py_scope.

(** Line 101: [np.array(res.norms[1:4])]. *)
Definition v2_unnorm (norms : list float) : list float :=
  PyList.slice 1 4 norms.

(** Line 102: [v2_unnorm / np.sqrt(np.sum(v2_unnorm**2))]. *)
Definition v2 (norms : list float) : list float :=
  let u := v2_unnorm norms in
  Np.div_scalar u (PrimFloat.sqrt (Np.sum (Np.square u))).

(** Lines 103-105: the three angles, each [np.arccos] of one element of
    [v2]. *)
Definition angles (norms : list float) : result (float * float * float) :=
  v2_0 <- PyList.index (v2 norms) 0 ;;
  v2_1 <- PyList.index (v2 norms) 1 ;;
  v2_2 <- PyList.index (v2 norms) 2 ;;
  Return (arccos v2_0, arccos v2_1, arccos v2_2).

(** Lines 106-109: [quat_x * quat_y * quat_z]; Python's [*] associates to
    the left. *)
Definition compose (vx vy vz : float) : Quaternion :=
  let quat_x := Quaternion_axis_radians axis_x vx in
  let quat_y := Quaternion_axis_radians axis_y vy in
  let quat_z := Quaternion_axis_radians axis_z vz in
  Quaternion_mul (Quaternion_mul quat_x quat_y) quat_z.

(** Lines 125-128: the vector part goes to [x], [y], [z], the scalar part
    to [w]. *)
Definition set_orientation (orientation : Quaternion) : Pose.Orientation :=
  let '(i0, i1, i2) := imaginary orientation in
  Pose.mkOrientation i0 i1 i2 (real orientation).

(** The body of [for pp in plane_params[0:1]], run on the fresh [res] and
    on [pos]; it assigns all seven fields of [pos].  [res.N] and
    [res.center_3d] are written and never read. *)
Definition body (pos : Pose.t) (pp : PlaneParam.t) : result Pose.t :=
  let norms := PlanesResults.norms PlanesResults.new ++ PlaneParam.w pp in
  a <- angles norms ;;
  let '(vx, vy, vz) := a in
  let orientation := compose vx vy vz in
  px <- PyList.index norms 1 ;;
  py <- PyList.index norms 2 ;;
  pz <- PyList.index norms 3 ;;
  Return (Pose.mk (Pose.mkPoint px py pz) (set_orientation orientation)).

Definition message (plane_params : list PlaneParam.t) : result Pose.t :=
  fold_left (fun acc pp => pos <- acc ;; body pos pp)
            (PyList.slice 0 1 plane_params)
            (Return Pose.new).

End WithLibs.

End PlanePosePublisher.

(** ** Effects of one run of the server

    What the server does to the outside is a trace of events: log lines,
    the detector call, the printed parameters and the four kinds of
    published message.  A computation gives the events it emitted and either
    returns or raises; the events emitted before an exception stay
    emitted. *)

Section Server.

Variable Image : Type.

Inductive Event : Type :=
| Log (msg : string)
| DetectPlanes (depth : Image) (color : option Image)
| PrintParams (index : nat) (pp : PlaneParam.t)
| PublishColoredMask (img : Image)
| PublishImageViz (img : Image)
| PublishResults (res : PlanesResults.t)
| PublishPose (pos : Pose.t).

Definition io (A : Type) : Type := (list Event * result A)%type.

Definition io_ret {A : Type} (a : A) : io A := ([], Return a).

Definition emit (e : Event) : io unit := ([e], Return tt).

Definition lift {A : Type} (r : result A) : io A := ([], r).

Definition io_bind {A B : Type} (m : io A) (k : A -> io B) : io B :=
  match m with
  | (t1, Return a) => let '(t2, r) := k a in (t1 ++ t2, r)
  | (t1, Raise e) => (t1, Raise e)
  end.

Definition io_seq {B : Type} (m : io unit) (k : io B) : io B :=
  io_bind m (fun _ => k).

Context {L : NumericLibs}.

(** The detector is [plane_detector.PlaneDetector], outside [src/]: a
    function from the depth and (optional) colour image to the planes, the
    coloured mask and the visualisation image. *)
Variable detect_planes : Image -> option Image -> list PlaneParam.t * Image * Image.

(** Line 80. *)
Definition PlaneResultsPublisher_publish (plane_params : list PlaneParam.t) : io unit :=
  emit (PublishResults (PlaneResultsPublisher.message plane_params)).

(** Line 130, reached only when lines 94-128 raised nothing. *)
Definition PlanePosePublisher_publish (plane_params : list PlaneParam.t) : io unit :=
  io_bind (lift (PlanePosePublisher.message plane_params))
          (fun pos => emit (PublishPose pos)).

(** Lines 174-175: [enumerate] from 0, printed with [index=i+1]. *)
Fixpoint print_result (i : nat) (list_plane_params : list PlaneParam.t) : io unit :=
  match list_plane_params with
  | [] => io_ret tt
  | plane_param :: rest =>
      io_seq (emit (PrintParams (i + 1) plane_param)) (print_result (S i) rest)
  end.

(** Lines 178-184, given what [detect_planes] returned. *)
Definition publish_result (detected : list PlaneParam.t * Image * Image) : io unit :=
  let '(list_plane_params, colored_mask, img_viz) := detected in
  io_seq (emit (PublishColoredMask colored_mask))
 (io_seq (emit (PublishImageViz img_viz))
 (io_seq (PlaneResultsPublisher_publish list_plane_params)
 (io_seq (PlanePosePublisher_publish list_plane_params)
 (io_seq (emit (Log "Publish results completes."))
 (io_seq (emit (Log "-------------------------------------------------"))
         (emit (Log ""))))))).

(** Lines 166-184: one cycle, from the log line that announces detection. *)
Definition cycle (depth : Image) (color : option Image) : io unit :=
  io_seq (emit (Log "================================================="))
 (io_seq (emit (Log "Received an image. Start plane detection."))
 (io_seq (emit (DetectPlanes depth color))
         (let detected := detect_planes depth color in
          io_seq (print_result 0 (fst (fst detected)))
                 (publish_result detected)))).

(** What one pass of [while not rospy.is_shutdown()] finds: no depth image
    yet, or a depth image with the colour image the server waited for
    ([None] when no colour topic is configured). *)
Inductive Observation : Type :=
| NoDepthImage
| DepthImage (depth : Image) (color : option Image).

(** Lines 154-184 over the observations made until shutdown. *)
Fixpoint main_loop (observations : list Observation) : io unit :=
  match observations with
  | [] => io_ret tt
  | NoDepthImage :: rest => main_loop rest
  | DepthImage depth color :: rest => io_seq (cycle depth color) (main_loop rest)
  end.

(** The messages published in a trace, in order. *)
Definition is_publication (e : Event) : bool :=
  match e with
  | PublishColoredMask _ | PublishImageViz _ | PublishResults _ | PublishPose _ => true
  | _ => false
  end.

Definition publications (trace : list Event) : list Event :=
  filter is_publication trace.

End Server.

Arguments Log {Image} msg.
Arguments DetectPlanes {Image} depth color.
Arguments PrintParams {Image} index pp.
Arguments PublishColoredMask {Image} img.
Arguments PublishImageViz {Image} img.
Arguments PublishResults {Image} res.
Arguments PublishPose {Image} pos.
Arguments io_ret {Image A} a.
Arguments emit {Image} e.
Arguments lift {Image A} r.
Arguments io_bind {Image A B} m k.
Arguments io_seq {Image B} m k.
Arguments PlaneResultsPublisher_publish {Image} plane_params.
Arguments PlanePosePublisher_publish {Image L} plane_params.
Arguments print_result {Image} i list_plane_params.
Arguments publish_result {Image L} detected.
Arguments cycle {Image L} detect_planes depth color.
Arguments NoDepthImage {Image}.
Arguments DepthImage {Image} depth color.
Arguments main_loop {Image L} detect_planes observations.
Arguments is_publication {Image} e.
Arguments publications {Image} trace.

(** ** Vocabulary of the statements *)

(** The dimensions of one plane's four attributes: [k] weights, a 3-D
    centre, a 2-D centre and a three-channel colour. *)
Definition dims (k : nat) (pp : PlaneParam.t) : Prop :=
  List.length (PlaneParam.w pp) = k /\
  List.length (PlaneParam.pts_3d_center pp) = 3 /\
  List.length (PlaneParam.pts_2d_center pp) = 2 /\
  List.length (PlaneParam.mask_color pp) = 3.

(** The divisor of line 102 for the three selected weights. *)
Definition norm_of (n0 n1 n2 : float) : float :=
  PrimFloat.sqrt (Np.sum (Np.square [n0; n1; n2])).


(** The same plane with another 3-D centre. *)
Definition with_center (c : list float) (pp : PlaneParam.t) : PlaneParam.t :=
  PlaneParam.mk (PlaneParam.w pp) c
    (PlaneParam.pts_2d_center pp) (PlaneParam.mask_color pp).

(** What one cycle is expected to publish, given what the detector
    returned: mask, visualisation, aggregated result and -- when the pose
    derivation raises nothing -- the pose. *)
Definition cycle_publications {Image : Type} {L : NumericLibs}
  (detected : list PlaneParam.t * Image * Image) : list (Event Image) :=
  let '(list_plane_params, colored_mask, img_viz) := detected in
  [PublishColoredMask colored_mask; PublishImageViz img_viz;
   PublishResults (PlaneResultsPublisher.message list_plane_params)] ++
  match PlanePosePublisher.message list_plane_params with
  | Return pos => [PublishPose pos]
  | Raise _ => []
  end.

(** A pass of the loop in which the pose publisher raises nothing. *)
Definition pose_derivable {Image : Type} {L : NumericLibs}
  (detect_planes : Image -> option Image -> list PlaneParam.t * Image * Image)
  (o : Observation Image) : Prop :=
  match o with
  | NoDepthImage => True
  | DepthImage depth color =>
      exists pos,
        PlanePosePublisher.message (fst (fst (detect_planes depth color))) = Return pos
  end.

(** The same plane with other weights. *)
Definition with_weights (w : list float) (pp : PlaneParam.t) : PlaneParam.t :=
  PlaneParam.mk w (PlaneParam.pts_3d_center pp)
    (PlaneParam.pts_2d_center pp) (PlaneParam.mask_color pp).

(** The pose derivation as the specification words it (section 4.4, step
    5): each unit-normalized component is clamped to [-1, 1] before
    [arccos].  The clamp is [np.clip], that is
    [np.minimum (np.maximum u (-1)) 1], which keeps a NaN. *)
Module Spec.





(** The rotation about one world axis by [arccos] of a component. *)
Definition rotation_about {L : NumericLibs}
  (axis : float * float * float) (u : float) : Quaternion :=
  Quaternion_axis_radians axis (arccos u).

End Spec.

(** ** A float implementation of the numeric interface

    pyquaternion's documented formulas over binary64: the rotation about a
    unit axis by [theta] is [(cos (theta/2), axis * sin (theta/2))], and the
    product is Hamilton's.  The three libm functions are parameters. *)

Module FloatQuaternion.

Local Open Scope float_scope.

Record q : Type := mkq { q0 : float; q1 : float; q2 : float; q3 : float }.

Definition axis_radians (cos sin : float -> float)
  (axis : float * float * float) (radians : float) : q :=
  let '(ax, ay, az) := axis in
  let theta := radians / 2 in
  mkq (cos theta) (ax * sin theta) (ay * sin theta) (az * sin theta).

Definition mul (a b : q) : q :=
  mkq (q0 a * q0 b - q1 a * q1 b - q2 a * q2 b - q3 a * q3 b)
      (q1 a * q0 b + q0 a * q1 b - q3 a * q2 b + q2 a * q3 b)
      (q2 a * q0 b + q3 a * q1 b + q0 a * q2 b - q1 a * q3 b)
      (q3 a * q0 b - q2 a * q1 b + q1 a * q2 b + q0 a * q3 b).

Definition libs (acos cos sin : float -> float) : NumericLibs :=
  {| arccos := acos;
     Quaternion := q;
     Quaternion_axis_radians := axis_radians cos sin;
     Quaternion_mul := mul;
     imaginary := fun a => (q1 a, q2 a, q3 a);
     real := q0 |}.

(** Truncated power series standing in for libm when an example is run;
    [acos_series] is NaN outside [-1, 1], as [np.arccos] is. *)
Definition cos_series (t : float) : float :=
  let t2 := t * t in
  1 - t2 / 2 * (1 - t2 / 12 * (1 - t2 / 30 * (1 - t2 / 56))).

Definition sin_series (t : float) : float :=
  let t2 := t * t in
  t * (1 - t2 / 6 * (1 - t2 / 20 * (1 - t2 / 42 * (1 - t2 / 72)))).

Definition acos_series (u : float) : float :=
  if (PrimFloat.leb (-1) u && PrimFloat.leb u 1)%bool then
    let u2 := u * u in
    0x1.921fb54442d18p+0 - u * (1 + u2 * (1 / 6 + u2 * (3 / 40 + u2 * (15 / 336))))
  else nan.

Definition series_libs : NumericLibs := libs acos_series cos_series sin_series.

End FloatQuaternion.

(** ** What a finite orientation asks of the libraries

    Whether the published quaternion is finite is decided by [np.arccos]
    and by pyquaternion.  Two facts about them are asked for: [np.arccos]
    gives a finite angle on [-1, 1], and the product of the three axis
    rotations by finite angles has finite components (each is a polynomial
    in sines and cosines of the half angles). *)


(** The float quaternions made to meet these two facts for every angle:
    where the power series or the product would overflow, 0 stands in.  On
    angles between 0 and pi nothing overflows and the values are those of
    [FloatQuaternion.series_libs]. *)
Module GuardedQuaternion.

Definition guard (x : float) : float :=
  if PrimFloat.is_finite x then x else PrimFloat.zero.

Definition acos (u : float) : float :=
  if PrimFloat.leb (PrimFloat.opp PrimFloat.one) u && PrimFloat.leb u PrimFloat.one
  then guard (FloatQuaternion.acos_series u)
  else PrimFloat.nan.

Definition mul (a b : FloatQuaternion.q) : FloatQuaternion.q :=
  let p := FloatQuaternion.mul a b in
  FloatQuaternion.mkq (guard (FloatQuaternion.q0 p)) (guard (FloatQuaternion.q1 p))
                      (guard (FloatQuaternion.q2 p)) (guard (FloatQuaternion.q3 p)).

Definition libs : NumericLibs :=
  {| arccos := acos;
     Quaternion := FloatQuaternion.q;
     Quaternion_axis_radians :=
       FloatQuaternion.axis_radians FloatQuaternion.cos_series FloatQuaternion.sin_series;
     Quaternion_mul := mul;
     imaginary := fun a => (FloatQuaternion.q1 a, FloatQuaternion.q2 a, FloatQuaternion.q3 a);
     real := FloatQuaternion.q0 |}.

End GuardedQuaternion.

(** ** Sample detector outputs *)

Module Samples.

Local Open Scope float_scope.

(** The plane [z = 2] as the detector's four weights
    [w0 + w1*x + w2*y + w3*z = 0], seen at the image centre, painted red. *)
Definition plane_a : PlaneParam.t :=
  PlaneParam.mk [-2; 0; 0; 1] [0; 0; 2] [320; 240] [255%Z; 0%Z; 0%Z].

(** The plane [x = 1], painted green. *)
Definition plane_b : PlaneParam.t :=
  PlaneParam.mk [-1; 1; 0; 0] [1; 0; 3] [400; 200] [0%Z; 255%Z; 0%Z].

(** The plane [2*z = 6]: the same surface as [z = 3], weights not
    normalized. *)
Definition plane_scaled : PlaneParam.t :=
  PlaneParam.mk [-6; 0; 0; 2] [0; 0; 3] [320; 240] [0%Z; 0%Z; 255%Z].

(** A plane through the origin with normal [(1, 2, 2)], whose three unit
    components differ from 0 and 1. *)
Definition plane_oblique : PlaneParam.t :=
  PlaneParam.mk [0; 1; 2; 2] [2; 1; -2] [100; 50] [255%Z; 255%Z; 0%Z].

(** A plane whose [w] is just a unit normal, three numbers. *)
Definition plane_c : PlaneParam.t :=
  PlaneParam.mk [0; 0; 1] [0; 0; 2] [320; 240] [255%Z; 0%Z; 0%Z].


(** A plane whose weights are all zero. *)
Definition plane_zero : PlaneParam.t :=
  PlaneParam.mk [0; 0; -0; 0] [0; 0; 2] [320; 240] [255%Z; 0%Z; 0%Z].

(** A detector over images that are plain numbers: it finds [planes]
    whatever it is shown, and returns the depth image as mask and the
    colour image (or 0) as visualisation. *)
Definition detector (planes : list PlaneParam.t)
  (depth : nat) (color : option nat) : list PlaneParam.t * nat * nat :=
  (planes, depth, match color with Some c => c | None => 0%nat end).

End Samples.

(** ** Startup and the polling loop (lines 50-60, 64-66, 84-86, 134-164,
    187-192)

    [argparse], [os.path], [open], [yaml] and the subscriber and publisher
    classes of [utils] and [rospy] are outside [src/].  Creating one of
    their objects is an event; what they answer is supplied from outside:
    whether a path exists, what reading a YAML file gives or raises, and
    what the two image subscribers hold at each pass of the loop. *)

Module Startup.

(** What [parser.parse_args] returns. *)
Record Args : Type := mkArgs {
  config_file : string;
  depth_topic : string;
  camera_info : string;
  color_topic : string
}.

(** The exceptions a run can end with: the one [read_config_file] raises,
    the two that indexing [config] can raise, an exception of external
    code, and an exception raised inside a cycle. *)
Inductive Failure : Type :=
| RuntimeError (msg : string)
| KeyError (key : string)
| TypeError
| ExternalError (name : string)
| InLoop (e : Exn).

Inductive outcome (A : Type) : Type :=
| Done (a : A)
| Failed (f : Failure).

Arguments Done {A} a.
Arguments Failed {A} f.

(** What a call into external code gives: a value, or an exception, of
    which the class name is kept. *)
Inductive external (A : Type) : Type :=
| Gives (a : A)
| Raises (name : string).

Arguments Gives {A} a.
Arguments Raises {A} name.

Definition of_external {A : Type} (r : external A) : outcome A :=
  match r with
  | Gives a => Done a
  | Raises name => Failed (ExternalError name)
  end.

(** The classes the two [rospy.Publisher]s of lines 65 and 85 carry. *)
Inductive DataClass : Set :=
| PlanesResultsClass
| PoseClass.

Section WithWorld.

Variable Image : Type.

(** The type of the values of the configuration document. *)
Variable Value : Type.

(** What [yaml.safe_load] gives: a mapping, as the list of its items whose
    key is a string (a lookup finds the first item with the key), or any
    other document (null, a scalar, a sequence). *)
Inductive Document : Type :=
| Mapping (items : list (string * Value))
| NotMapping.

Inductive MainEvent : Type :=
| InitNode (name : string)
| PlaneDetectorCreated (config_file camera_info : string)
| DepthImageSubscriberCreated (topic : string)
| ColorImageSubscriberCreated (topic : string)
| LogInfo (msg : string)
| ColorImagePublisherCreated (topic : Value)
| RospyPublisherCreated (topic : Value) (data_class : DataClass) (queue_size : nat)
| Slept
| InCycle (e : Event Image)
| LogWarn (msg : string).

Definition mio (A : Type) : Type := (list MainEvent * outcome A)%type.

Definition mret {A : Type} (a : A) : mio A := ([], Done a).

Definition memit (e : MainEvent) : mio unit := ([e], Done tt).

Definition mlift {A : Type} (r : outcome A) : mio A := ([], r).

Definition mbind {A B : Type} (m : mio A) (k : A -> mio B) : mio B :=
  match m with
  | (t1, Done a) => let '(t2, r) := k a in (t1 ++ t2, r)
  | (t1, Failed f) => (t1, Failed f)
  end.

Definition mseq {B : Type} (m : mio unit) (k : mio B) : mio B :=
  mbind m (fun _ => k).

(** A computation of the loop body run inside [main]: its events are
    tagged, its exception becomes the run's. *)
Definition in_cycle {A : Type} (m : io Image A) : mio A :=
  (map InCycle (fst m),
   match snd m with
   | Return a => Done a
   | Raise e => Failed (InLoop e)
   end).

Context {L : NumericLibs}.
Variable detect_planes : Image -> option Image -> list PlaneParam.t * Image * Image.

(** [os.path.exists]. *)
Variable os_path_exists : string -> bool.

(** The nested [read_yaml_file] (lines 55-58): [open] and
    [yaml.safe_load], both external. *)
Variable read_yaml_file : string -> external Document.

(** Lines 50-60. *)
Definition read_config_file (config_file_path : string) : mio Document :=
  if negb (os_path_exists config_file_path) then
    mlift (Failed (RuntimeError ("Config file doesn't exist: " ++ config_file_path)))
  else
    mseq (memit (LogInfo ("Read config from: " ++ config_file_path)))
         (mlift (of_external (read_yaml_file config_file_path))).

(** [d[key]] on a dict given by its items. *)
Definition dict_get (key : string) (items : list (string * Value)) : option Value :=
  option_map snd (find (fun item => String.eqb (fst item) key) items).

(** [config[key]]: [KeyError] when a mapping lacks the key, [TypeError]
    when the document is not a mapping. *)
Definition getitem (config : Document) (key : string) : outcome Value :=
  match config with
  | Mapping items =>
      match dict_get key items with
      | Some v => Done v
      | None => Failed (KeyError key)
      end
  | NotMapping => Failed TypeError
  end.

(** Lines 64-66 and 84-86: the two [__init__], with their default
    [queue_size=10] made explicit at the call. *)
Definition PlaneResultsPublisher_init (topic_name : Value) (queue_size : nat) : mio unit :=
  memit (RospyPublisherCreated topic_name PlanesResultsClass queue_size).

Definition PlanePosePublisher_init (topic_name : Value) (queue_size : nat) : mio unit :=
  memit (RospyPublisherCreated topic_name PoseClass queue_size).

(** What the subscribers answer during one pass of the outer [while]:
    [sub_depth.has_image()] is false; or it is true, [get_image()] gives
    [depth], and the colour subscriber -- when there is one to poll --
    answers [has_image()] with false [color_waits] times and then with
    true, its [get_image()] giving [color].  The list of passes ends when
    [rospy.is_shutdown()] is true. *)
Inductive Pass : Type :=
| DepthNotReady
| DepthReady (depth : Image) (color_waits : nat) (color : Image).

(** Lines 159-164: the wait for the colour image, one [rospy.sleep(0.005)]
    per failed poll; [None] without a colour subscriber. *)
Definition wait_color (sub_color : bool) (color_waits : nat) (color : Image)
  : mio (option Image) :=
  if sub_color then (repeat Slept color_waits, Done (Some color))
  else mret None.

(** Lines 154-184. *)
Fixpoint while_loop (sub_color : bool) (passes : list Pass) : mio unit :=
  match passes with
  | [] => mret tt
  | DepthNotReady :: rest => while_loop sub_color rest
  | DepthReady depth color_waits color :: rest =>
      mbind (wait_color sub_color color_waits color) (fun color =>
      mseq (in_cycle (cycle detect_planes depth color))
           (while_loop sub_color rest))
  end.

(** Lines 136-151, then the loop.  [if args.color_topic:] tests that the
    string is not empty. *)
Definition main (args : Args) (passes : list Pass) : mio unit :=
  mseq (memit (PlaneDetectorCreated (config_file args) (camera_info args)))
 (mseq (memit (DepthImageSubscriberCreated (depth_topic args)))
 (let sub_color := negb (String.eqb (color_topic args) "") in
  mseq (if sub_color then memit (ColorImageSubscriberCreated (color_topic args))
        else mret tt)
 (mbind (read_config_file (config_file args)) (fun config =>
  mbind (mlift (getitem config "topic_colored_mask")) (fun topic_colored_mask =>
  mseq (memit (ColorImagePublisherCreated topic_colored_mask))
 (mbind (mlift (getitem config "topic_image_viz")) (fun topic_image_viz =>
  mseq (memit (ColorImagePublisherCreated topic_image_viz))
 (mbind (mlift (getitem config "topic_result")) (fun topic_result =>
  mseq (PlaneResultsPublisher_init topic_result 10)
 (mbind (mlift (getitem config "topic_pose")) (fun topic_pose =>
  mseq (PlanePosePublisher_init topic_pose 10)
       (while_loop sub_color passes)))))))))))).

Definition node_name : string := "plane_detector_server".

(** Lines 187-192, given what [parse_command_line_argumetns] returned or
    raised. *)
Definition script (parsed : external Args) (passes : list Pass) : mio unit :=
  mseq (memit (InitNode node_name))
 (mbind (mlift (of_external parsed)) (fun args =>
  mseq (main args passes)
       (memit (LogWarn ("Node `" ++ node_name ++ "` stops."))))).

(** The pass as the loop body sees it. *)
Definition observe (sub_color : bool) (p : Pass) : Observation Image :=
  match p with
  | DepthNotReady => NoDepthImage
  | DepthReady depth _ color => DepthImage depth (if sub_color then Some color else None)
  end.

(** The events of the loop body in a trace of [main], in order. *)
Definition cycle_events (trace : list MainEvent) : list (Event Image) :=
  flat_map (fun e => match e with InCycle e' => [e'] | _ => [] end) trace.

(** The events of a trace of [main] that precede the loop body's, and the
    sleeps. *)
Definition is_in_cycle (e : MainEvent) : bool :=
  match e with
  | InCycle _ => true
  | _ => false
  end.

Definition is_slept (e : MainEvent) : bool :=
  match e with
  | Slept => true
  | _ => false
  end.

(** The colour image a detector call was given, for the events that are
    detector calls. *)
Definition detect_color (e : MainEvent) : option (option Image) :=
  match e with
  | InCycle (DetectPlanes _ color) => Some color
  | _ => None
  end.

(** Whether a detector call was given a colour image. *)
Definition has_color (c : option Image) : bool :=
  match c with
  | Some _ => true
  | None => false
  end.

(** The sleeps a list of passes asks of a server that polls for colour. *)
Definition total_waits (passes : list Pass) : nat :=
  list_sum (map (fun p => match p with
                          | DepthNotReady => 0
                          | DepthReady _ color_waits _ => color_waits
                          end) passes).

(** The four keys [main] reads, in the order it reads them. *)
Definition topic_keys : list string :=
  ["topic_colored_mask"; "topic_image_viz"; "topic_result"; "topic_pose"]%string.

End WithWorld.

Arguments Mapping {Value} items.
Arguments NotMapping {Value}.
Arguments InitNode {Image Value} name.
Arguments PlaneDetectorCreated {Image Value} config_file camera_info.
Arguments DepthImageSubscriberCreated {Image Value} topic.
Arguments ColorImageSubscriberCreated {Image Value} topic.
Arguments LogInfo {Image Value} msg.
Arguments ColorImagePublisherCreated {Image Value} topic.
Arguments RospyPublisherCreated {Image Value} topic data_class queue_size.
Arguments Slept {Image Value}.
Arguments InCycle {Image Value} e.
Arguments LogWarn {Image Value} msg.
Arguments mret {Image Value A} a.
Arguments memit {Image Value} e.
Arguments mlift {Image Value A} r.
Arguments mbind {Image Value A B} m k.
Arguments mseq {Image Value B} m k.
Arguments in_cycle {Image Value A} m.
Arguments read_config_file {Image Value} os_path_exists read_yaml_file config_file_path.
Arguments dict_get {Value} key items.
Arguments getitem {Value} config key.
Arguments PlaneResultsPublisher_init {Image Value} topic_name queue_size.
Arguments PlanePosePublisher_init {Image Value} topic_name queue_size.
Arguments DepthNotReady {Image}.
Arguments DepthReady {Image} depth color_waits color.
Arguments wait_color {Image Value} sub_color color_waits color.
Arguments while_loop {Image Value L} detect_planes sub_color passes.
Arguments main {Image Value L} detect_planes os_path_exists read_yaml_file args passes.
Arguments script {Image Value L} detect_planes os_path_exists read_yaml_file parsed passes.
Arguments observe {Image} sub_color p.
Arguments cycle_events {Image Value} trace.
Arguments is_in_cycle {Image Value} e.
Arguments is_slept {Image Value} e.
Arguments detect_color {Image Value} e.
Arguments has_color {Image} c.
Arguments total_waits {Image} passes.

(** The first of the four keys that a mapping lacks, if any. *)
Definition first_missing {Value : Type} (items : list (string * Value)) : option string :=
  find (fun key => match dict_get key items with
                   | Some _ => false
                   | None => true
                   end) topic_keys.

(** The events of [main] before the loop, for a configuration that holds
    the four topics. *)
Definition setup_events {Image Value : Type} (args : Args)
  (topic_colored_mask topic_image_viz topic_result topic_pose : Value)
  : list (MainEvent Image Value) :=
  [PlaneDetectorCreated (config_file args) (camera_info args);
   DepthImageSubscriberCreated (depth_topic args)] ++
  (if String.eqb (color_topic args) "" then []
   else [ColorImageSubscriberCreated (color_topic args)]) ++
  [LogInfo ("Read config from: " ++ config_file args);
   ColorImagePublisherCreated topic_colored_mask;
   ColorImagePublisherCreated topic_image_viz;
   RospyPublisherCreated topic_result PlanesResultsClass 10;
   RospyPublisherCreated topic_pose PoseClass 10].

(** Lines 136-151 on their own: the events before the loop, and whether a
    colour subscriber was created. *)
Definition setup {Image Value : Type}
  (os_path_exists : string -> bool)
  (read_yaml_file : string -> external (Document Value))
  (args : Args) : mio Image Value bool :=
  mseq (memit (PlaneDetectorCreated (config_file args) (camera_info args)))
 (mseq (memit (DepthImageSubscriberCreated (depth_topic args)))
 (let sub_color := negb (String.eqb (color_topic args) "") in
  mseq (if sub_color then memit (ColorImageSubscriberCreated (color_topic args))
        else mret tt)
 (mbind (read_config_file os_path_exists read_yaml_file (config_file args)) (fun config =>
  mbind (mlift (getitem config "topic_colored_mask")) (fun topic_colored_mask =>
  mseq (memit (ColorImagePublisherCreated topic_colored_mask))
 (mbind (mlift (getitem config "topic_image_viz")) (fun topic_image_viz =>
  mseq (memit (ColorImagePublisherCreated topic_image_viz))
 (mbind (mlift (getitem config "topic_result")) (fun topic_result =>
  mseq (PlaneResultsPublisher_init topic_result 10)
 (mbind (mlift (getitem config "topic_pose")) (fun topic_pose =>
  mseq (PlanePosePublisher_init topic_pose 10)
       (mret sub_color)))))))))))).

(** The events [main] may emit before the loop. *)
Definition is_setup_event {Image Value : Type} (args : Args)
  (e : MainEvent Image Value) : Prop :=
  match e with
  | PlaneDetectorCreated _ _ | DepthImageSubscriberCreated _ | LogInfo _
  | ColorImagePublisherCreated _ | RospyPublisherCreated _ _ _ => True
  | ColorImageSubscriberCreated topic =>
      color_topic args <> ""%string /\ topic = color_topic args
  | InitNode _ | Slept | InCycle _ | LogWarn _ => False
  end.

(** A run on sample data: a configuration file with the four topics and a
    comment key, found at the default path only. *)
Module Demo.

Definition args_color : Args :=
  mkArgs "config/plane_detector_config.yaml" "camera/depth" "config/cam_params.yaml"
         "camera/color".

Definition args_depth_only : Args :=
  mkArgs "config/plane_detector_config.yaml" "camera/depth" "config/cam_params.yaml" "".

Definition args_elsewhere : Args :=
  mkArgs "missing.yaml" "camera/depth" "config/cam_params.yaml" "".

Definition items : list (string * string) :=
  [("topic_colored_mask", "detect_plane/colored_mask");
   ("topic_image_viz", "detect_plane/image_viz");
   ("note", "topics of the plane detection server");
   ("topic_result", "detect_plane/results");
   ("topic_pose", "detect_plane/pose")]%string.

(** The same file without its [topic_result] line. *)
Definition items_no_result : list (string * string) :=
  [("topic_colored_mask", "detect_plane/colored_mask");
   ("topic_image_viz", "detect_plane/image_viz");
   ("topic_pose", "detect_plane/pose")]%string.

Definition os_path_exists (path : string) : bool :=
  String.eqb path "config/plane_detector_config.yaml".

Definition read_yaml_file (content : list (string * string)) (path : string)
  : external (Document string) :=
  if String.eqb path "config/plane_detector_config.yaml" then Gives (Mapping content)
  else Raises "FileNotFoundError".

Definition passes : list (Pass nat) :=
  [DepthNotReady; DepthReady 5 2 7; DepthNotReady; DepthReady 6 0 8].

(** The sample run: the detector finds the plane [z = 2] in every frame. *)
Definition detect : nat -> option nat -> list PlaneParam.t * nat * nat :=
  Samples.detector [Samples.plane_a].

Definition run (content : list (string * string)) (args : Args) : mio nat string unit :=
  @main nat string FloatQuaternion.series_libs detect
        os_path_exists (read_yaml_file content) args passes.

End Demo.

End Startup.

(** * Properties *)

(** ** Lists: slices and indices *)

Lemma slice_concat_uniform (A : Type) (k : nat) (ls : list (list A)) :
  Forall (fun l => List.length l = k) ls ->
  forall (i : nat) (l : list A),
    nth_error ls i = Some l ->
    PyList.slice (k * i) (k * i + k) (concat ls) = l.
Proof.
  unfold PyList.slice.
  induction 1 as [| l0 rest Hl0 Hrest IH]; intros i l Hnth.
  - destruct i; discriminate Hnth.
  - replace (k * i + k - k * i) with k by lia.
    destruct i as [| i]; simpl in Hnth |- *.
    + injection Hnth as <-.
      rewrite Nat.mul_0_r. simpl.
      rewrite firstn_app, <- Hl0, firstn_all, Nat.sub_diag.
      simpl. apply app_nil_r.
    + replace (k * S i) with (List.length l0 + k * i) by lia.
      rewrite skipn_app, skipn_all2 by lia.
      replace (List.length l0 + k * i - List.length l0) with (k * i) by lia.
      simpl.
      specialize (IH i l Hnth).
      replace (k * i + k - k * i) with k in IH by lia.
      exact IH.
Qed.

Lemma length_concat_uniform (A : Type) (k : nat) (ls : list (list A)) :
  Forall (fun l => List.length l = k) ls ->
  List.length (concat ls) = k * List.length ls.
Proof.
  induction 1 as [| l0 rest Hl0 Hrest IH]; simpl.
  - lia.
  - rewrite length_app, IH, Hl0. lia.
Qed.

(** ** PlaneResultsPublisher: the message is the concatenation of the fields *)

Lemma fold_extend (plane_params : list PlaneParam.t) :
  forall res : PlanesResults.t,
    fold_left PlaneResultsPublisher.extend plane_params res =
    PlanesResults.mk
      (PlanesResults.N res)
      (PlanesResults.norms res ++ concat (map PlaneParam.w plane_params))
      (PlanesResults.center_3d res ++ concat (map PlaneParam.pts_3d_center plane_params))
      (PlanesResults.center_2d res ++ concat (map PlaneParam.pts_2d_center plane_params))
      (PlanesResults.mask_color res ++ concat (map PlaneParam.mask_color plane_params)).
Proof.
  induction plane_params as [| pp rest IH]; intros res; simpl.
  - rewrite !app_nil_r. now destruct res.
  - rewrite IH. unfold PlaneResultsPublisher.extend; simpl.
    now rewrite <- !app_assoc.
Qed.

Lemma message_flattens (plane_params : list PlaneParam.t) :
  PlaneResultsPublisher.message plane_params =
  PlanesResults.mk
    (List.length plane_params)
    (concat (map PlaneParam.w plane_params))
    (concat (map PlaneParam.pts_3d_center plane_params))
    (concat (map PlaneParam.pts_2d_center plane_params))
    (concat (map PlaneParam.mask_color plane_params)).
Proof.
  unfold PlaneResultsPublisher.message. now rewrite fold_extend.
Qed.

Lemma dims_map (k : nat) (plane_params : list PlaneParam.t) :
  Forall (dims k) plane_params ->
  Forall (fun l => List.length l = k) (map PlaneParam.w plane_params) /\
  Forall (fun l => List.length l = 3) (map PlaneParam.pts_3d_center plane_params) /\
  Forall (fun l => List.length l = 2) (map PlaneParam.pts_2d_center plane_params) /\
  Forall (fun l => List.length l = 3) (map PlaneParam.mask_color plane_params).
Proof.
  intros H. repeat split; apply Forall_map;
    (eapply Forall_impl; [| exact H]); unfold dims; intros pp Hpp; tauto.
Qed.

(** C1, as the specification states it, fails: one plane whose [w] holds
    the four weights the pose publisher indexes gives [N = 1] and four
    [norms], not three. *)
Lemma norms_length_counterexample :
  let res := PlaneResultsPublisher.message [Samples.plane_a] in
  PlanesResults.N res = 1 /\
  List.length (PlanesResults.norms res) = 4 /\
  List.length (PlanesResults.norms res) <> 3 * PlanesResults.N res.
Proof.
  vm_compute. repeat split. discriminate.
Qed.

(** C1 (amended): for [N] planes whose [w] has [k] components each and
    whose centres and colour have 3, 2 and 3, the message built by
    [PlaneResultsPublisher.publish] has [N] as its count, [k*N] norms,
    [3N] 3-D centre values, [2N] 2-D centre values and [3N] colour
    values. *)
Theorem message_lengths (k : nat) (plane_params : list PlaneParam.t) :
  Forall (dims k) plane_params ->
  let res := PlaneResultsPublisher.message plane_params in
  PlanesResults.N res = List.length plane_params /\
  List.length (PlanesResults.norms res) = k * PlanesResults.N res /\
  List.length (PlanesResults.center_3d res) = 3 * PlanesResults.N res /\
  List.length (PlanesResults.center_2d res) = 2 * PlanesResults.N res /\
  List.length (PlanesResults.mask_color res) = 3 * PlanesResults.N res.
Proof.
  intros H. rewrite message_flattens. simpl.
  destruct (dims_map k plane_params H) as (Hw & H3 & H2 & Hc).
  split; [reflexivity |].
  rewrite (length_concat_uniform _ _ _ Hw), (length_concat_uniform _ _ _ H3),
          (length_concat_uniform _ _ _ H2), (length_concat_uniform _ _ _ Hc).
  now rewrite !length_map.
Qed.

Lemma message_lengths_witness :
  Forall (dims 4) [Samples.plane_a; Samples.plane_b] /\
  let res := PlaneResultsPublisher.message [Samples.plane_a; Samples.plane_b] in
  PlanesResults.N res = 2 /\
  List.length (PlanesResults.norms res) = 4 * PlanesResults.N res /\
  List.length (PlanesResults.center_3d res) = 3 * PlanesResults.N res /\
  List.length (PlanesResults.center_2d res) = 2 * PlanesResults.N res /\
  List.length (PlanesResults.mask_color res) = 3 * PlanesResults.N res.
Proof.
  assert (H : Forall (dims 4) [Samples.plane_a; Samples.plane_b]).
  { repeat constructor. }
  split; [exact H |].
  exact (message_lengths 4 _ H).
Defined.

(** C7, as the specification states it, fails: with two planes of four
    weights each, the triple at index 1 of [norms] straddles both planes and
    is not the second plane's [w]. *)
Lemma aggregation_triple_counterexample :
  let plane_params := [Samples.plane_a; Samples.plane_b] in
  let res := PlaneResultsPublisher.message plane_params in
  nth_error plane_params 1 = Some Samples.plane_b /\
  PyList.slice 3 6 (PlanesResults.norms res) = [1; -1; 1]%float /\
  PyList.slice 3 6 (PlanesResults.norms res) <> PlaneParam.w Samples.plane_b.
Proof.
  vm_compute. repeat split. discriminate.
Qed.

(** C7 (amended): aggregation is an order-preserving flattening.  The four
    output sequences are the concatenations, in input order, of the planes'
    [w], [pts_3d_center], [pts_2d_center] and [mask_color]; nothing is
    reordered, dropped or merged.  When every plane has [k] weights, a 3-D
    centre, a 2-D centre and a three-channel colour, the [i]-th block of
    [k] norms, the [i]-th triple of [center_3d], the [i]-th pair of
    [center_2d] and the [i]-th triple of [mask_color] are the fields of the
    [i]-th plane. *)
Theorem aggregation_order (k : nat) (plane_params : list PlaneParam.t)
  (i : nat) (pp : PlaneParam.t) :
  Forall (dims k) plane_params ->
  nth_error plane_params i = Some pp ->
  let res := PlaneResultsPublisher.message plane_params in
  res = PlanesResults.mk
          (List.length plane_params)
          (concat (map PlaneParam.w plane_params))
          (concat (map PlaneParam.pts_3d_center plane_params))
          (concat (map PlaneParam.pts_2d_center plane_params))
          (concat (map PlaneParam.mask_color plane_params)) /\
  PyList.slice (k * i) (k * i + k) (PlanesResults.norms res) = PlaneParam.w pp /\
  PyList.slice (3 * i) (3 * i + 3) (PlanesResults.center_3d res) = PlaneParam.pts_3d_center pp /\
  PyList.slice (2 * i) (2 * i + 2) (PlanesResults.center_2d res) = PlaneParam.pts_2d_center pp /\
  PyList.slice (3 * i) (3 * i + 3) (PlanesResults.mask_color res) = PlaneParam.mask_color pp.
Proof.
  intros H Hi. cbv zeta. rewrite message_flattens.
  split; [reflexivity |].
  destruct (dims_map k plane_params H) as (Hw & H3 & H2 & Hc).
  cbn [PlanesResults.norms PlanesResults.center_3d PlanesResults.center_2d
       PlanesResults.mask_color].
  repeat split; apply slice_concat_uniform; trivial;
    rewrite nth_error_map, Hi; reflexivity.
Qed.

Lemma aggregation_order_witness :
  let plane_params := [Samples.plane_a; Samples.plane_b] in
  let res := PlaneResultsPublisher.message plane_params in
  PyList.slice 4 8 (PlanesResults.norms res) = PlaneParam.w Samples.plane_b /\
  PyList.slice 3 6 (PlanesResults.center_3d res) = PlaneParam.pts_3d_center Samples.plane_b /\
  PyList.slice 2 4 (PlanesResults.center_2d res) = PlaneParam.pts_2d_center Samples.plane_b /\
  PyList.slice 3 6 (PlanesResults.mask_color res) = PlaneParam.mask_color Samples.plane_b.
Proof.
  assert (H : Forall (dims 4) [Samples.plane_a; Samples.plane_b]).
  { repeat constructor. }
  exact (proj2 (aggregation_order 4 [Samples.plane_a; Samples.plane_b] 1
                  Samples.plane_b H eq_refl)).
Defined.

(** ** Floats: the two zeros *)

Lemma is_zero_cases (a : float) :
  PrimFloat.is_zero a = true -> a = PrimFloat.zero \/ a = PrimFloat.neg_zero.
Proof.
  unfold PrimFloat.is_zero. rewrite FloatAxioms.eqb_spec.
  destruct (Prim2SF a) as [s | s | | s m e] eqn:E; cbn.
  - intros _. destruct s; [right | left]; apply FloatAxioms.Prim2SF_inj;
      rewrite E; reflexivity.
  - destruct s; discriminate.
  - discriminate.
  - destruct s; discriminate.
Qed.

(** ** Floats: the sum of three squares

    [np.sum] starts from 0; a square is never [-0.0], so adding it to the
    initial 0 gives it back, and the divisor of line 102 is the square root
    of the three squares added from the left. *)

Lemma add_zero_square (x : float) :
  PrimFloat.add PrimFloat.zero (PrimFloat.mul x x) = PrimFloat.mul x x.
Proof.
  apply FloatAxioms.Prim2SF_inj.
  rewrite FloatAxioms.add_spec, FloatAxioms.mul_spec.
  change (Prim2SF PrimFloat.zero) with (SpecFloat.S754_zero false).
  unfold FloatAxioms.SF64add, FloatAxioms.SF64mul.
  destruct (Prim2SF x) as [s | s | | s m e]; cbn [SpecFloat.SFmul];
    try (destruct s; reflexivity); try reflexivity.
  replace (xorb s s) with false by (now destruct s).
  unfold SpecFloat.binary_round_aux.
  destruct (SpecFloat.shr_fexp FloatOps.prec FloatOps.emax _ _ _) as [mrs' e'].
  destruct (SpecFloat.shr_fexp FloatOps.prec FloatOps.emax _ e' _) as [mrs'' e''].
  destruct (SpecFloat.shr_m mrs'') as [| p | p]; [reflexivity | | reflexivity].
  destruct (e'' <=? FloatOps.emax - FloatOps.prec)%Z; reflexivity.
Qed.

Lemma norm_of_explicit (n0 n1 n2 : float) :
  norm_of n0 n1 n2 =
  PrimFloat.sqrt
    (PrimFloat.add (PrimFloat.add (PrimFloat.mul n0 n0) (PrimFloat.mul n1 n1))
                   (PrimFloat.mul n2 n2)).
Proof.
  unfold norm_of, Np.sum, Np.square. cbn [map fold_left].
  now rewrite add_zero_square.
Qed.

(** ** PlanePosePublisher: what the loop body returns *)

Section PoseProperties.

Context {L : NumericLibs}.

Import PlanePosePublisher.

Lemma message_nil : message [] = Return Pose.new.
Proof. reflexivity. Qed.

Lemma message_cons (pp : PlaneParam.t) (rest : list PlaneParam.t) :
  message (pp :: rest) = body Pose.new pp.
Proof. reflexivity. Qed.

Lemma v2_four (w0 n0 n1 n2 : float) (t : list float) :
  v2_unnorm (w0 :: n0 :: n1 :: n2 :: t) = [n0; n1; n2] /\
  v2 (w0 :: n0 :: n1 :: n2 :: t) =
    [PrimFloat.div n0 (norm_of n0 n1 n2);
     PrimFloat.div n1 (norm_of n0 n1 n2);
     PrimFloat.div n2 (norm_of n0 n1 n2)].
Proof. split; reflexivity. Qed.

Lemma body_four (pos : Pose.t) (pp : PlaneParam.t)
  (w0 n0 n1 n2 : float) (t : list float) :
  PlaneParam.w pp = w0 :: n0 :: n1 :: n2 :: t ->
  body pos pp =
  Return (Pose.mk (Pose.mkPoint n0 n1 n2)
            (set_orientation
               (compose (arccos (PrimFloat.div n0 (norm_of n0 n1 n2)))
                        (arccos (PrimFloat.div n1 (norm_of n0 n1 n2)))
                        (arccos (PrimFloat.div n2 (norm_of n0 n1 n2)))))).
Proof.
  intros Hw. unfold body. rewrite Hw. reflexivity.
Qed.

Lemma body_short (pos : Pose.t) (pp : PlaneParam.t) :
  List.length (PlaneParam.w pp) < 4 -> body pos pp = Raise IndexError.
Proof.
  unfold body.
  destruct (PlaneParam.w pp) as [| w0 [| w1 [| w2 [| w3 t]]]]; simpl; intros H;
    try reflexivity; lia.
Qed.

Lemma four_weights (l : list float) :
  4 <= List.length l ->
  exists w0 n0 n1 n2 t, l = w0 :: n0 :: n1 :: n2 :: t.
Proof.
  destruct l as [| w0 [| n0 [| n1 [| n2 t]]]]; simpl; intros H; try lia.
  now exists w0, n0, n1, n2, t.
Qed.

End PoseProperties.

Section PoseClaims.

Context {L : NumericLibs}.

Import PlanePosePublisher.

(** C2: for a non-empty plane sequence, the position of the published pose
    is the first plane's selected raw weights -- the elements of
    [v2_unnorm], read before the division of line 102 -- and the plane's
    3-D centre has no part in the pose. *)
Theorem position_is_raw_normal (pp : PlaneParam.t) (rest : list PlaneParam.t)
  (pos : Pose.t) :
  message (pp :: rest) = Return pos ->
  v2_unnorm (PlaneParam.w pp) =
    [Pose.x (Pose.position pos); Pose.y (Pose.position pos); Pose.z (Pose.position pos)] /\
  forall center : list float, message (with_center center pp :: rest) = Return pos.
Proof.
  intros Hpos. rewrite message_cons in Hpos.
  destruct (Nat.lt_ge_cases (List.length (PlaneParam.w pp)) 4) as [Hshort | Hlong].
  - rewrite (body_short Pose.new pp Hshort) in Hpos. discriminate Hpos.
  - destruct (four_weights _ Hlong) as (w0 & n0 & n1 & n2 & t & Hw).
    rewrite (body_four Pose.new pp _ _ _ _ _ Hw) in Hpos.
    injection Hpos as <-. split.
    + rewrite Hw. reflexivity.
    + intros center. rewrite message_cons.
      now rewrite (body_four Pose.new (with_center center pp) w0 n0 n1 n2 t Hw).
Qed.

(** C4: for a non-empty plane sequence, the published orientation is the
    quaternion product [X * Y * Z] of the rotations about the three world
    axes, each by [arccos] of the matching component of the first plane's
    unit normal: with [n0], [n1], [n2] the weights at indices 1, 2, 3, that
    component is the binary64 quotient of [n0] (of [n1], of [n2]) by the
    square root of [(n0*n0 + n1*n1) + n2*n2].  The product's vector part is
    the orientation's (x, y, z) and its scalar part the orientation's w. *)
Theorem orientation_is_xyz_product (pp : PlaneParam.t) (rest : list PlaneParam.t)
  (pos : Pose.t) :
  message (pp :: rest) = Return pos ->
  exists (w0 n0 n1 n2 : float) (t : list float),
    PlaneParam.w pp = w0 :: n0 :: n1 :: n2 :: t /\
    let s :=
      PrimFloat.sqrt
        (PrimFloat.add (PrimFloat.add (PrimFloat.mul n0 n0) (PrimFloat.mul n1 n1))
                       (PrimFloat.mul n2 n2)) in
    let ux := PrimFloat.div n0 s in
    let uy := PrimFloat.div n1 s in
    let uz := PrimFloat.div n2 s in
    v2 (PlaneParam.w pp) = [ux; uy; uz] /\
    let product :=
      Quaternion_mul
        (Quaternion_mul
           (Quaternion_axis_radians (PrimFloat.one, PrimFloat.zero, PrimFloat.zero)
                                    (arccos ux))
           (Quaternion_axis_radians (PrimFloat.zero, PrimFloat.one, PrimFloat.zero)
                                    (arccos uy)))
        (Quaternion_axis_radians (PrimFloat.zero, PrimFloat.zero, PrimFloat.one)
                                 (arccos uz)) in
    (Pose.qx (Pose.orientation pos), Pose.qy (Pose.orientation pos),
     Pose.qz (Pose.orientation pos)) = imaginary product /\
    Pose.qw (Pose.orientation pos) = real product.
Proof.
  intros Hpos. rewrite message_cons in Hpos.
  destruct (Nat.lt_ge_cases (List.length (PlaneParam.w pp)) 4) as [Hshort | Hlong].
  - rewrite (body_short Pose.new pp Hshort) in Hpos. discriminate Hpos.
  - destruct (four_weights _ Hlong) as (w0 & n0 & n1 & n2 & t & Hw).
    rewrite (body_four Pose.new pp _ _ _ _ _ Hw) in Hpos. injection Hpos as <-.
    destruct (v2_four w0 n0 n1 n2 t) as [_ Hv2].
    exists w0, n0, n1, n2, t. split; [exact Hw |]. cbv zeta.
    rewrite Hw, Hv2, norm_of_explicit. split; [reflexivity |].
    cbn [Pose.orientation Pose.qx Pose.qy Pose.qz Pose.qw].
    unfold set_orientation, compose, axis_x, axis_y, axis_z.
    destruct (imaginary _) as [[i0 i1] i2]. split; reflexivity.
Qed.

(** C6: for a non-empty plane sequence, the pose depends on the first plane
    only: the whole sequence and the one-element sequence of its first
    plane give the same result, a pose or an exception. *)
Theorem pose_depends_on_first_plane (pp : PlaneParam.t) (rest : list PlaneParam.t) :
  message (pp :: rest) = message [pp].
Proof.
  rewrite (message_cons pp rest), (message_cons pp []). reflexivity.
Qed.

(** C9: for a non-empty plane sequence the pose publisher reads elements 1,
    2 and 3 of the first plane's flattened [w], skipping element 0.  It
    returns a pose exactly when that [w] has at least four components; with
    fewer it raises [IndexError], and when [w] has exactly three components
    both [v2[2]] and [norms[3]] are out of range. *)
Theorem pose_needs_four_weights (pp : PlaneParam.t) (rest : list PlaneParam.t) :
  ((exists pos, message (pp :: rest) = Return pos) <->
   4 <= List.length (PlaneParam.w pp)) /\
  (message (pp :: rest) = Raise IndexError <-> List.length (PlaneParam.w pp) < 4) /\
  (forall pos, message (pp :: rest) = Return pos ->
     PyList.index (PlaneParam.w pp) 1 = Return (Pose.x (Pose.position pos)) /\
     PyList.index (PlaneParam.w pp) 2 = Return (Pose.y (Pose.position pos)) /\
     PyList.index (PlaneParam.w pp) 3 = Return (Pose.z (Pose.position pos))) /\
  (forall (w0 w0' : float) (tail : list float),
     PlaneParam.w pp = w0 :: tail ->
     message (with_weights (w0' :: tail) pp :: rest) = message (pp :: rest)) /\
  (List.length (PlaneParam.w pp) = 3 ->
     PyList.index (v2 (PlaneParam.w pp)) 2 = Raise IndexError /\
     PyList.index (PlaneParam.w pp) 3 = Raise IndexError).
Proof.
  split; [| split; [| split; [| split]]].
  - rewrite message_cons. split.
    + intros [pos Hpos].
      destruct (Nat.lt_ge_cases (List.length (PlaneParam.w pp)) 4) as [Hshort | Hlong];
        [| exact Hlong].
      rewrite (body_short Pose.new pp Hshort) in Hpos. discriminate Hpos.
    + intros Hlong.
      destruct (four_weights _ Hlong) as (w0 & n0 & n1 & n2 & t & Hw).
      rewrite (body_four Pose.new pp _ _ _ _ _ Hw). eexists. reflexivity.
  - rewrite message_cons. split.
    + intros Hraise.
      destruct (Nat.lt_ge_cases (List.length (PlaneParam.w pp)) 4) as [Hshort | Hlong];
        [exact Hshort |].
      destruct (four_weights _ Hlong) as (w0 & n0 & n1 & n2 & t & Hw).
      rewrite (body_four Pose.new pp _ _ _ _ _ Hw) in Hraise. discriminate Hraise.
    + apply body_short.
  - intros pos. rewrite message_cons. intros Hpos.
    destruct (Nat.lt_ge_cases (List.length (PlaneParam.w pp)) 4) as [Hshort | Hlong].
    + rewrite (body_short Pose.new pp Hshort) in Hpos. discriminate Hpos.
    + destruct (four_weights _ Hlong) as (w0 & n0 & n1 & n2 & t & Hw).
      rewrite (body_four Pose.new pp _ _ _ _ _ Hw) in Hpos. injection Hpos as <-.
      rewrite Hw. repeat split.
  - intros w0 w0' tail Hw. rewrite !message_cons.
    destruct tail as [| n0 [| n1 [| n2 t]]];
      try (rewrite (body_short Pose.new pp), (body_short Pose.new (with_weights _ pp));
           [reflexivity | simpl; lia | rewrite Hw; simpl; lia]).
    rewrite (body_four Pose.new pp _ _ _ _ _ Hw).
    now rewrite (body_four Pose.new (with_weights (w0' :: n0 :: n1 :: n2 :: t) pp)
                   w0' n0 n1 n2 t eq_refl).
  - intros H3.
    destruct (PlaneParam.w pp) as [| w0 [| w1 [| w2 [| w3 t]]]]; try discriminate H3.
    split; reflexivity.
Qed.

(** When the pose publisher returns a pose for a non-empty sequence of
    planes of [k] weights each, [k] is at least 4, so the aggregated
    [norms] of the same sequence hold more than three values per plane. *)
Theorem norms_length_when_pose_published (k : nat) (pp : PlaneParam.t)
  (rest : list PlaneParam.t) (pos : Pose.t) :
  Forall (dims k) (pp :: rest) ->
  message (pp :: rest) = Return pos ->
  let res := PlaneResultsPublisher.message (pp :: rest) in
  4 <= k /\
  List.length (PlanesResults.norms res) = k * PlanesResults.N res /\
  3 * PlanesResults.N res < List.length (PlanesResults.norms res).
Proof.
  intros Hdims Hpos. cbv zeta.
  assert (Hk : 4 <= k).
  { rewrite message_cons in Hpos.
    destruct (Nat.lt_ge_cases (List.length (PlaneParam.w pp)) 4) as [Hshort | Hlong].
    - rewrite (body_short Pose.new pp Hshort) in Hpos. discriminate Hpos.
    - inversion Hdims as [| ? ? Hpp _]. destruct Hpp as [Hw _]. lia. }
  rewrite message_flattens.
  cbn [PlanesResults.norms PlanesResults.N].
  destruct (dims_map k (pp :: rest) Hdims) as (Hw & _).
  rewrite (length_concat_uniform _ _ _ Hw), length_map.
  cbn [List.length]. repeat split; nia.
Qed.

End PoseClaims.

Section NormalizationClaims.

Context {L : NumericLibs}.

Import PlanePosePublisher.



(** C10: line 102 divides the selected weights [w[1]], [w[2]], [w[3]] by
    the square root of their sum of squares and tests nothing.  When the
    three are all zero (of either sign) the divisor is zero and each
    quotient is the undefined [0/0], NaN; the publisher still goes on and
    hands [arccos] three NaNs.  A pose whose unit normal is defined thus
    needs a selection that is not all zero. *)
Theorem zero_normal_division (pp : PlaneParam.t) (rest : list PlaneParam.t)
  (w0 n0 n1 n2 : float) (t : list float) :
  PlaneParam.w pp = w0 :: n0 :: n1 :: n2 :: t ->
  PrimFloat.is_zero n0 = true ->
  PrimFloat.is_zero n1 = true ->
  PrimFloat.is_zero n2 = true ->
  norm_of n0 n1 n2 = PrimFloat.zero /\
  v2 (PlaneParam.w pp) = [PrimFloat.nan; PrimFloat.nan; PrimFloat.nan] /\
  message (pp :: rest) =
    Return (Pose.mk (Pose.mkPoint n0 n1 n2)
              (set_orientation
                 (compose (arccos PrimFloat.nan) (arccos PrimFloat.nan)
                          (arccos PrimFloat.nan)))).
Proof.
  intros Hw Z0 Z1 Z2.
  rewrite message_cons, (body_four Pose.new pp _ _ _ _ _ Hw), Hw.
  destruct (v2_four w0 n0 n1 n2 t) as [_ ->].
  destruct (is_zero_cases _ Z0) as [-> | ->];
    destruct (is_zero_cases _ Z1) as [-> | ->];
    destruct (is_zero_cases _ Z2) as [-> | ->];
    repeat split.
Qed.

End NormalizationClaims.

(** ** The pose claims on sample planes *)

Lemma position_is_raw_normal_witness :
  exists pos : Pose.t,
    @PlanePosePublisher.message FloatQuaternion.series_libs
      [Samples.plane_scaled; Samples.plane_b] = Return pos /\
    Pose.position pos = Pose.mkPoint 0 0 2 /\
    PlanePosePublisher.v2 (PlaneParam.w Samples.plane_scaled) = [0; 0; 1]%float /\
    PlaneParam.pts_3d_center Samples.plane_scaled = [0; 0; 3]%float /\
    PlanePosePublisher.v2_unnorm (PlaneParam.w Samples.plane_scaled) =
      [Pose.x (Pose.position pos); Pose.y (Pose.position pos);
       Pose.z (Pose.position pos)].
Proof.
  eexists. split; [reflexivity |].
  split; [reflexivity |]. split; [reflexivity |]. split; [reflexivity |].
  apply (@position_is_raw_normal FloatQuaternion.series_libs
           Samples.plane_scaled [Samples.plane_b]).
  reflexivity.
Defined.

Lemma orientation_is_xyz_product_witness :
  exists pos : Pose.t,
    @PlanePosePublisher.message FloatQuaternion.series_libs
      [Samples.plane_oblique; Samples.plane_b] = Return pos /\
    PlanePosePublisher.v2 (PlaneParam.w Samples.plane_oblique) =
      [1 / 3; 2 / 3; 2 / 3]%float /\
    (let rotation := FloatQuaternion.axis_radians FloatQuaternion.cos_series
                                                  FloatQuaternion.sin_series in
     let product :=
       FloatQuaternion.mul
         (FloatQuaternion.mul
            (rotation (1, 0, 0)%float (FloatQuaternion.acos_series (1 / 3)))
            (rotation (0, 1, 0)%float (FloatQuaternion.acos_series (2 / 3))))
         (rotation (0, 0, 1)%float (FloatQuaternion.acos_series (2 / 3))) in
     (Pose.qx (Pose.orientation pos), Pose.qy (Pose.orientation pos),
      Pose.qz (Pose.orientation pos)) =
       (FloatQuaternion.q1 product, FloatQuaternion.q2 product,
        FloatQuaternion.q3 product) /\
     Pose.qw (Pose.orientation pos) = FloatQuaternion.q0 product) /\
    (616 / 1000 <? Pose.qx (Pose.orientation pos))%float = true /\
    (Pose.qx (Pose.orientation pos) <? 618 / 1000)%float = true /\
    (88 / 1000 <? Pose.qy (Pose.orientation pos))%float = true /\
    (Pose.qy (Pose.orientation pos) <? 90 / 1000)%float = true /\
    (519 / 1000 <? Pose.qz (Pose.orientation pos))%float = true /\
    (Pose.qz (Pose.orientation pos) <? 521 / 1000)%float = true /\
    (583 / 1000 <? Pose.qw (Pose.orientation pos))%float = true /\
    (Pose.qw (Pose.orientation pos) <? 585 / 1000)%float = true.
Proof.
  eexists. split; [reflexivity |].
  destruct (@orientation_is_xyz_product FloatQuaternion.series_libs
              Samples.plane_oblique [Samples.plane_b] _ eq_refl)
    as (w0 & n0 & n1 & n2 & t & Hw & Hv2 & Hproduct).
  cbn in Hw. injection Hw as <- <- <- <- <-.
  split; [exact Hv2 |]. split; [exact Hproduct |].
  repeat split; vm_compute; reflexivity.
Defined.

(** The order of the product is observable: over the float quaternions,
    the pose of the oblique sample plane is not the one the reversed
    product [Z * Y * X] would give. *)
Lemma reversed_product_differs :
  let L := FloatQuaternion.series_libs in
  let u := PlanePosePublisher.v2 (PlaneParam.w Samples.plane_oblique) in
  let zyx :=
    FloatQuaternion.mul
      (FloatQuaternion.mul
         (@Spec.rotation_about L axis_z (nth 2 u PrimFloat.nan))
         (@Spec.rotation_about L axis_y (nth 1 u PrimFloat.nan)))
      (@Spec.rotation_about L axis_x (nth 0 u PrimFloat.nan)) in
  exists pos : Pose.t,
    @PlanePosePublisher.message L [Samples.plane_oblique] = Return pos /\
    Pose.orientation pos <> @PlanePosePublisher.set_orientation L zyx.
Proof.
  cbv zeta. eexists. split; [reflexivity |].
  vm_compute. intros H. discriminate H.
Qed.

Lemma pose_needs_four_weights_witness :
  List.length (PlaneParam.w Samples.plane_c) = 3 /\
  PyList.index (PlanePosePublisher.v2 (PlaneParam.w Samples.plane_c)) 2 =
    Raise IndexError /\
  PyList.index (PlaneParam.w Samples.plane_c) 3 = Raise IndexError /\
  @PlanePosePublisher.message FloatQuaternion.series_libs
    [Samples.plane_c; Samples.plane_a] = Raise IndexError.
Proof.
  pose proof (@pose_needs_four_weights FloatQuaternion.series_libs
                Samples.plane_c [Samples.plane_a]) as (_ & Hraise & _ & _ & H3).
  split; [reflexivity |].
  split; [exact (proj1 (H3 eq_refl)) |].
  split; [exact (proj2 (H3 eq_refl)) |].
  apply Hraise. simpl. lia.
Defined.





Lemma zero_normal_division_witness :
  PlanePosePublisher.v2 (PlaneParam.w Samples.plane_zero) =
    [PrimFloat.nan; PrimFloat.nan; PrimFloat.nan] /\
  exists pos : Pose.t,
    @PlanePosePublisher.message FloatQuaternion.series_libs [Samples.plane_zero] =
      Return pos /\
    Pose.orientation pos =
      Pose.mkOrientation PrimFloat.nan PrimFloat.nan PrimFloat.nan PrimFloat.nan.
Proof.
  destruct (@zero_normal_division FloatQuaternion.series_libs
              Samples.plane_zero [] 0%float 0%float (-0)%float 0%float []
              eq_refl eq_refl eq_refl eq_refl) as (_ & Hv2 & Hmsg).
  split; [exact Hv2 |].
  eexists. split; [exact Hmsg | reflexivity].
Defined.

(** ** The loop body: what is published, and in which order *)

Section ServerClaims.

Variable Image : Type.
Context {L : NumericLibs}.
Variable detect_planes : Image -> option Image -> list PlaneParam.t * Image * Image.

Lemma print_result_returns (list_plane_params : list PlaneParam.t) :
  forall i : nat,
    snd (print_result (Image := Image) i list_plane_params) = Return tt /\
    publications (fst (print_result (Image := Image) i list_plane_params)) = [].
Proof.
  induction list_plane_params as [| plane_param rest IH]; intros i.
  - split; reflexivity.
  - destruct (IH (S i)) as [Hret Hpub].
    cbn [print_result]. unfold io_seq, io_bind, emit.
    destruct (print_result (S i) rest) as [t2 r]. cbn in Hret, Hpub |- *.
    split; assumption.
Qed.

Lemma publish_result_trace (list_plane_params : list PlaneParam.t)
  (colored_mask img_viz : Image) :
  publish_result (list_plane_params, colored_mask, img_viz) =
  match PlanePosePublisher.message list_plane_params with
  | Return pos =>
      ([PublishColoredMask colored_mask; PublishImageViz img_viz;
        PublishResults (PlaneResultsPublisher.message list_plane_params);
        PublishPose pos;
        Log "Publish results completes.";
        Log "-------------------------------------------------";
        Log ""],
       Return tt)
  | Raise e =>
      ([PublishColoredMask colored_mask; PublishImageViz img_viz;
        PublishResults (PlaneResultsPublisher.message list_plane_params)],
       Raise e)
  end.
Proof.
  unfold publish_result, PlanePosePublisher_publish, PlaneResultsPublisher_publish,
    io_seq, io_bind, emit, lift.
  destruct (PlanePosePublisher.message list_plane_params) as [pos | e]; reflexivity.
Qed.

Lemma cycle_trace (depth : Image) (color : option Image)
  (list_plane_params : list PlaneParam.t) (colored_mask img_viz : Image) :
  detect_planes depth color = (list_plane_params, colored_mask, img_viz) ->
  cycle detect_planes depth color =
  let announced :=
    [Log "=================================================";
     Log "Received an image. Start plane detection.";
     DetectPlanes depth color] ++ fst (print_result 0 list_plane_params) in
  let published := fst (publish_result (list_plane_params, colored_mask, img_viz)) in
  (announced ++ published,
   snd (publish_result (L := L) (list_plane_params, colored_mask, img_viz))).
Proof.
  intros Hdetect. unfold cycle. rewrite Hdetect. cbn [fst].
  destruct (print_result_returns list_plane_params 0) as [Hret _].
  destruct (print_result 0 list_plane_params) as [printed r].
  cbn [fst snd] in Hret |- *. subst r.
  destruct (publish_result (list_plane_params, colored_mask, img_viz)) as [t2 r2].
  reflexivity.
Qed.

(** C5: a cycle whose detection finds no plane raises nothing.  The mask,
    the visualisation and a [PlanesResults] with [N = 0] and four empty
    sequences are published, and then the pose of a fresh [Pose()]:
    position (0, 0, 0) and orientation (0, 0, 0, 0). *)
Theorem empty_detection_publishes_zero_pose
  (depth : Image) (color : option Image) (colored_mask img_viz : Image) :
  detect_planes depth color = ([], colored_mask, img_viz) ->
  cycle detect_planes depth color =
  ([Log "=================================================";
    Log "Received an image. Start plane detection.";
    DetectPlanes depth color;
    PublishColoredMask colored_mask;
    PublishImageViz img_viz;
    PublishResults (PlanesResults.mk 0 [] [] [] []);
    PublishPose
      (Pose.mk (Pose.mkPoint PrimFloat.zero PrimFloat.zero PrimFloat.zero)
               (Pose.mkOrientation PrimFloat.zero PrimFloat.zero PrimFloat.zero
                                   PrimFloat.zero));
    Log "Publish results completes.";
    Log "-------------------------------------------------";
    Log ""],
   Return tt).
Proof.
  intros Hdetect. unfold cycle. rewrite Hdetect.
  rewrite publish_result_trace, message_nil. reflexivity.
Qed.

(** C8 (amended): in every cycle, after the detector has been called and
    its planes printed, the coloured mask, the visualisation image and the
    aggregated [PlanesResults] are published once each, in that order.  The
    pose is derived after these three, inside the fourth publish call, and
    is published once, last, when the derivation raises nothing; when it
    raises, the cycle ends with that exception after three publications. *)
Theorem cycle_publication_order
  (depth : Image) (color : option Image)
  (list_plane_params : list PlaneParam.t) (colored_mask img_viz : Image) :
  detect_planes depth color = (list_plane_params, colored_mask, img_viz) ->
  let run := cycle detect_planes depth color in
  let first_three :=
    [PublishColoredMask colored_mask; PublishImageViz img_viz;
     PublishResults (PlaneResultsPublisher.message list_plane_params)] in
  exists before after : list (Event Image),
    fst run = before ++ DetectPlanes depth color :: after /\
    publications before = [] /\
    match PlanePosePublisher.message list_plane_params with
    | Return pos =>
        publications after = first_three ++ [PublishPose pos] /\
        snd run = Return tt
    | Raise e =>
        publications after = first_three /\ snd run = Raise e
    end.
Proof.
  intros Hdetect. cbv zeta.
  exists [Log "================================================="%string;
          Log "Received an image. Start plane detection."%string].
  rewrite (cycle_trace _ _ _ _ _ Hdetect). cbv zeta. cbn [fst snd].
  rewrite publish_result_trace.
  destruct (print_result_returns list_plane_params 0) as [_ Hpub].
  destruct (PlanePosePublisher.message list_plane_params) as [pos | e];
    eexists; (split; [reflexivity |]); (split; [reflexivity |]);
    cbn [fst snd]; unfold publications in *; rewrite filter_app, Hpub;
    split; reflexivity.
Qed.

(** The publications of a whole run: as long as the pose publisher raises
    in no cycle, the loop publishes, cycle after cycle in the order of the
    depth images, the four messages of each cycle, and nothing for a pass
    without a depth image.  (The detector, [print_params] and the image
    publishers are external calls, taken here to return.) *)
Theorem main_loop_publications (observations : list (Observation Image)) :
  Forall (pose_derivable detect_planes) observations ->
  publications (fst (main_loop detect_planes observations)) =
    flat_map (fun o =>
                match o with
                | NoDepthImage => []
                | DepthImage depth color => cycle_publications (detect_planes depth color)
                end) observations.
Proof.
  induction 1 as [| o rest Ho Hrest IHpub].
  - reflexivity.
  - destruct o as [| depth color]; cbn [main_loop flat_map].
    + assumption.
    + destruct Ho as [pos Hpos].
      destruct (detect_planes depth color) as [[planes mask] viz] eqn:Hdetect.
      cbn [fst] in Hpos.
      rewrite (cycle_trace _ _ _ _ _ Hdetect). cbv zeta.
      rewrite publish_result_trace. unfold cycle_publications. rewrite Hpos.
      destruct (print_result_returns planes 0) as [_ Hprinted].
      unfold io_seq, io_bind. cbn [fst snd].
      destruct (main_loop detect_planes rest) as [t2 r2].
      cbn [fst snd] in IHpub |- *.
      unfold publications in *.
      rewrite !filter_app, Hprinted, IHpub. reflexivity.
Qed.

End ServerClaims.

(** ** The loop claims on sample detections *)

Lemma empty_detection_witness :
  Samples.detector [] 5 (Some 7) = ([], 5, 7) /\
  @cycle nat FloatQuaternion.series_libs (Samples.detector []) 5 (Some 7) =
  ([Log "=================================================";
    Log "Received an image. Start plane detection.";
    DetectPlanes 5 (Some 7);
    PublishColoredMask 5;
    PublishImageViz 7;
    PublishResults (PlanesResults.mk 0 [] [] [] []);
    PublishPose
      (Pose.mk (Pose.mkPoint PrimFloat.zero PrimFloat.zero PrimFloat.zero)
               (Pose.mkOrientation PrimFloat.zero PrimFloat.zero PrimFloat.zero
                                   PrimFloat.zero));
    Log "Publish results completes.";
    Log "-------------------------------------------------";
    Log ""],
   Return tt).
Proof.
  split; [reflexivity |].
  apply (@empty_detection_publishes_zero_pose nat FloatQuaternion.series_libs
           (Samples.detector []) 5 (Some 7) 5 7).
  reflexivity.
Defined.

(** C8, as the specification states it, fails: the pose is not derived
    before the first publication.  When the first plane's [w] has three
    components, the mask, the visualisation and the result are published,
    the derivation then raises, and no pose is published in that cycle. *)
Lemma four_publications_counterexample :
  let run := @cycle nat FloatQuaternion.series_libs
               (Samples.detector [Samples.plane_c]) 5 (Some 7) in
  publications (fst run) =
    [PublishColoredMask 5; PublishImageViz 7;
     PublishResults
       (PlanesResults.mk 1 [0; 0; 1]%float [0; 0; 2]%float [320; 240]%float
                         [255%Z; 0%Z; 0%Z])] /\
  snd run = Raise IndexError.
Proof.
  split; reflexivity.
Qed.

Lemma cycle_publication_order_witness :
  let run := @cycle nat FloatQuaternion.series_libs
               (Samples.detector [Samples.plane_a]) 5 None in
  exists (before after : list (Event nat)) (pos : Pose.t),
    fst run = before ++ DetectPlanes 5 None :: after /\
    publications before = [] /\
    publications after =
      [PublishColoredMask 5; PublishImageViz 0;
       PublishResults (PlaneResultsPublisher.message [Samples.plane_a]);
       PublishPose pos] /\
    Pose.position pos = Pose.mkPoint 0 0 1 /\
    snd run = Return tt.
Proof.
  destruct (@cycle_publication_order nat FloatQuaternion.series_libs
              (Samples.detector [Samples.plane_a]) 5 None
              [Samples.plane_a] 5 0 eq_refl)
    as (before & after & Hrun & Hbefore & Hafter).
  exists before, after. eexists.
  split; [exact Hrun |]. split; [exact Hbefore |].
  split; [exact (proj1 Hafter) |]. split; [reflexivity | exact (proj2 Hafter)].
Defined.

Lemma main_loop_publications_witness :
  let observations := [NoDepthImage; DepthImage 5 None; DepthImage 6 (Some 8)] in
  let detect := Samples.detector [Samples.plane_a; Samples.plane_b] in
  let run := @main_loop nat FloatQuaternion.series_libs detect observations in
  Forall (@pose_derivable nat FloatQuaternion.series_libs detect) observations /\
  List.length (publications (fst run)) = 8 /\
  map (fun e => match e with
                | PublishColoredMask img | PublishImageViz img => img
                | _ => 0
                end) (publications (fst run)) = [5; 0; 0; 0; 6; 8; 0; 0].
Proof.
  assert (H : Forall (@pose_derivable nat FloatQuaternion.series_libs
                        (Samples.detector [Samples.plane_a; Samples.plane_b]))
                [NoDepthImage; DepthImage 5 None; DepthImage 6 (Some 8)]).
  { repeat constructor; eexists; reflexivity. }
  cbv zeta. split; [exact H |].
  rewrite (@main_loop_publications nat FloatQuaternion.series_libs _ _ H).
  split; reflexivity.
Defined.

Lemma norms_length_when_pose_published_witness :
  let plane_params := [Samples.plane_a; Samples.plane_b] in
  let res := PlaneResultsPublisher.message plane_params in
  List.length (PlanesResults.norms res) = 8 /\
  3 * PlanesResults.N res < List.length (PlanesResults.norms res).
Proof.
  assert (H : Forall (dims 4) [Samples.plane_a; Samples.plane_b]).
  { repeat constructor. }
  destruct (@norms_length_when_pose_published FloatQuaternion.series_libs 4
              Samples.plane_a [Samples.plane_b] _ H eq_refl) as (_ & Hlen & Hlt).
  split; [exact Hlen | exact Hlt].
Defined.

(** * Further properties of the publishers and of the loop body *)

(** ** Aggregation and concatenation *)

(** Aggregating two plane lists one after the other: the count is the sum
    of the counts and each of the four sequences is the first list's
    followed by the second's. *)
Theorem message_app (first second : list PlaneParam.t) :
  let res := PlaneResultsPublisher.message (first ++ second) in
  let res1 := PlaneResultsPublisher.message first in
  let res2 := PlaneResultsPublisher.message second in
  PlanesResults.N res = PlanesResults.N res1 + PlanesResults.N res2 /\
  PlanesResults.norms res = PlanesResults.norms res1 ++ PlanesResults.norms res2 /\
  PlanesResults.center_3d res =
    PlanesResults.center_3d res1 ++ PlanesResults.center_3d res2 /\
  PlanesResults.center_2d res =
    PlanesResults.center_2d res1 ++ PlanesResults.center_2d res2 /\
  PlanesResults.mask_color res =
    PlanesResults.mask_color res1 ++ PlanesResults.mask_color res2.
Proof.
  cbv zeta. rewrite !message_flattens.
  cbn [PlanesResults.N PlanesResults.norms PlanesResults.center_3d
       PlanesResults.center_2d PlanesResults.mask_color].
  rewrite !map_app, !concat_app, length_app. repeat split.
Qed.

Section PublisherAgreement.

Context {L : NumericLibs}.

(** The two messages of one cycle agree: when a pose is published for a
    non-empty plane sequence, its position is elements 1, 2 and 3 of the
    [norms] that [PlaneResultsPublisher.publish] builds from the same
    sequence; for the empty sequence [norms] is empty and the pose is the
    fresh [Pose()]. *)
Theorem position_matches_published_norms
  (plane_params : list PlaneParam.t) (pos : Pose.t) :
  PlanePosePublisher.message plane_params = Return pos ->
  let norms := PlanesResults.norms (PlaneResultsPublisher.message plane_params) in
  match plane_params with
  | [] => norms = [] /\ pos = Pose.new
  | _ :: _ =>
      PyList.slice 1 4 norms =
        [Pose.x (Pose.position pos); Pose.y (Pose.position pos);
         Pose.z (Pose.position pos)]
  end.
Proof.
  destruct plane_params as [| pp rest]; cbv zeta.
  - rewrite message_nil. intros [= <-]. split; reflexivity.
  - intros Hpos. rewrite message_cons in Hpos.
    destruct (Nat.lt_ge_cases (List.length (PlaneParam.w pp)) 4) as [Hshort | Hlong].
    + rewrite (body_short Pose.new pp Hshort) in Hpos. discriminate Hpos.
    + destruct (four_weights _ Hlong) as (w0 & n0 & n1 & n2 & t & Hw).
      rewrite (body_four Pose.new pp _ _ _ _ _ Hw) in Hpos. injection Hpos as <-.
      rewrite message_flattens. cbn [PlanesResults.norms map concat].
      rewrite Hw. reflexivity.
Qed.

End PublisherAgreement.

Lemma nth_error_combine_seq (A : Type) (l : list A) :
  forall (n k : nat) (a : A),
    nth_error l k = Some a ->
    nth_error (combine (seq n (List.length l)) l) k = Some (n + k, a).
Proof.
  induction l as [| a0 rest IH]; intros n k a Hk.
  - destruct k; discriminate Hk.
  - destruct k as [| k]; cbn in Hk |- *.
    + injection Hk as ->. now rewrite Nat.add_0_r.
    + rewrite (IH (S n) k a Hk). f_equal. f_equal. lia.
Qed.

(** ** The loop body: numbering of the printed planes, and failure *)

Section LoopBody.

Variable Image : Type.
Context {L : NumericLibs}.
Variable detect_planes : Image -> option Image -> list PlaneParam.t * Image * Image.

Lemma print_result_events (list_plane_params : list PlaneParam.t) :
  forall i : nat,
    fst (print_result (Image := Image) i list_plane_params) =
    map (fun numbered => PrintParams (S (fst numbered)) (snd numbered))
        (combine (seq i (List.length list_plane_params)) list_plane_params).
Proof.
  induction list_plane_params as [| plane_param rest IH]; intros i.
  - reflexivity.
  - cbn [print_result List.length seq combine map fst snd].
    unfold io_seq, io_bind, emit.
    specialize (IH (S i)).
    destruct (print_result (S i) rest) as [t2 r]. cbn [fst] in IH |- *.
    rewrite IH, Nat.add_1_r. reflexivity.
Qed.

(** The planes of a cycle are printed in detection order and numbered
    from 1: the [k]-th printed event (counting from 0) carries the index
    [k + 1] and the [k]-th plane, and there is one event per plane. *)
Theorem print_result_numbering (list_plane_params : list PlaneParam.t) :
  snd (print_result (Image := Image) 0 list_plane_params) = Return tt /\
  List.length (fst (print_result (Image := Image) 0 list_plane_params)) =
    List.length list_plane_params /\
  forall (k : nat) (pp : PlaneParam.t),
    nth_error list_plane_params k = Some pp ->
    nth_error (fst (print_result (Image := Image) 0 list_plane_params)) k =
      Some (PrintParams (k + 1) pp).
Proof.
  split; [apply print_result_returns |].
  rewrite print_result_events. split.
  - rewrite length_map, length_combine, length_seq. apply Nat.min_id.
  - intros k pp Hk.
    rewrite nth_error_map.
    rewrite (nth_error_combine_seq _ list_plane_params 0 k pp Hk).
    cbn. now rewrite Nat.add_1_r.
Qed.

Lemma cycle_raises (depth : Image) (color : option Image) (e : Exn) :
  PlanePosePublisher.message (fst (fst (detect_planes depth color))) = Raise e ->
  snd (cycle detect_planes depth color) = Raise e /\
  publications (fst (cycle detect_planes depth color)) =
    cycle_publications (detect_planes depth color).
Proof.
  intros Hraise.
  destruct (detect_planes depth color) as [[planes mask] viz] eqn:Hdetect.
  cbn [fst] in Hraise.
  rewrite (cycle_trace Image detect_planes _ _ _ _ _ Hdetect). cbv zeta.
  rewrite publish_result_trace. unfold cycle_publications. rewrite Hraise.
  destruct (print_result_returns Image planes 0) as [_ Hprinted].
  cbn [fst snd]. split; [reflexivity |].
  unfold publications in *. rewrite !filter_app, Hprinted. reflexivity.
Qed.

(** An exception in a cycle ends the run: when the pose publisher raises
    in the cycle of some depth image and in none before it, the loop ends
    with that exception; what it has published is the four messages of each
    earlier cycle and the first three of the failing one, and the passes
    that would have followed change nothing. *)
Theorem loop_stops_at_first_failure
  (earlier later : list (Observation Image))
  (depth : Image) (color : option Image) (e : Exn) :
  Forall (pose_derivable detect_planes) earlier ->
  PlanePosePublisher.message (fst (fst (detect_planes depth color))) = Raise e ->
  let run := main_loop detect_planes (earlier ++ DepthImage depth color :: later) in
  snd run = Raise e /\
  run = main_loop detect_planes (earlier ++ [DepthImage depth color]) /\
  publications (fst run) =
    flat_map (fun o =>
                match o with
                | NoDepthImage => []
                | DepthImage depth' color' => cycle_publications (detect_planes depth' color')
                end) earlier ++
    [PublishColoredMask (snd (fst (detect_planes depth color)));
     PublishImageViz (snd (detect_planes depth color));
     PublishResults (PlaneResultsPublisher.message (fst (fst (detect_planes depth color))))].
Proof.
  intros Hearlier Hraise. cbv zeta.
  destruct (cycle_raises depth color e Hraise) as [Hsnd Hpub].
  induction Hearlier as [| o rest Ho Hrest IH].
  - cbn [app main_loop flat_map]. unfold io_seq, io_bind.
    destruct (cycle detect_planes depth color) as [t r]. cbn [fst snd] in Hsnd, Hpub.
    subst r. cbn [fst snd]. repeat split.
    rewrite Hpub. unfold cycle_publications.
    destruct (detect_planes depth color) as [[planes mask] viz].
    cbn [fst snd] in Hraise |- *. rewrite Hraise. now rewrite app_nil_r.
  - destruct IH as (IHsnd & IHeq & IHpub).
    destruct o as [| depth' color']; cbn [app main_loop flat_map].
    + repeat split; assumption.
    + destruct Ho as [pos Hpos].
      destruct (detect_planes depth' color') as [[planes' mask'] viz'] eqn:Hdetect'.
      cbn [fst] in Hpos.
      rewrite (cycle_trace Image detect_planes _ _ _ _ _ Hdetect'). cbv zeta.
      rewrite publish_result_trace. unfold cycle_publications at 1. rewrite Hpos.
      destruct (print_result_returns Image planes' 0) as [_ Hprinted].
      unfold io_seq, io_bind. cbn [fst snd].
      rewrite <- IHeq.
      destruct (main_loop detect_planes (rest ++ DepthImage depth color :: later))
        as [t2 r2].
      cbn [fst snd] in IHsnd, IHpub |- *. repeat split; [exact IHsnd |].
      unfold publications in *.
      rewrite !filter_app, Hprinted, IHpub. cbn. reflexivity.
Qed.

End LoopBody.

(** * Startup and the polling loop *)

Section StartupProperties.

Import Startup.

Variable Image : Type.
Variable Value : Type.
Context {L : NumericLibs}.
Variable detect_planes : Image -> option Image -> list PlaneParam.t * Image * Image.
Variable os_path_exists : string -> bool.

Local Abbreviation mevent := (MainEvent Image Value).

(** *** Traces *)

Lemma cycle_events_app (t1 t2 : list mevent) :
  cycle_events (t1 ++ t2) = cycle_events t1 ++ cycle_events t2.
Proof. apply flat_map_app. Qed.

Lemma cycle_events_tagged (t : list (Event Image)) :
  cycle_events (map (@InCycle Image Value) t) = t.
Proof.
  induction t as [| e t IH]; [reflexivity |].
  cbn. f_equal. exact IH.
Qed.

Lemma cycle_events_sleeps (n : nat) :
  cycle_events (repeat (@Slept Image Value) n) = [].
Proof. induction n as [| n IH]; [reflexivity | exact IH]. Qed.

Lemma mbind_trace (A B : Type) (m : mio Image Value A) (k : A -> mio Image Value B) :
  mbind m k =
  match snd m with
  | Done a => (fst m ++ fst (k a), snd (k a))
  | Failed f => (fst m, Failed f)
  end.
Proof.
  destruct m as [t1 [a | f]]; cbn; [| reflexivity].
  destruct (k a) as [t2 r]. reflexivity.
Qed.

(** *** The polling loop refines the loop over observations *)

Lemma while_loop_refines (sub_color : bool) (passes : list (Pass Image)) :
  cycle_events (fst (while_loop (Value := Value) detect_planes sub_color passes)) =
    fst (main_loop detect_planes (map (observe sub_color) passes)) /\
  snd (while_loop (Value := Value) detect_planes sub_color passes) =
    match snd (main_loop detect_planes (map (observe sub_color) passes)) with
    | Return a => Done a
    | Raise e => Failed (InLoop e)
    end.
Proof.
  induction passes as [| p rest [IHt IHr]]; [split; reflexivity |].
  destruct p as [| depth color_waits color]; [split; assumption |].
  cbn [while_loop map observe main_loop].
  set (c := if sub_color then Some color else None).
  assert (Hwait : wait_color (Value := Value) sub_color color_waits color =
                  ((if sub_color then repeat Slept color_waits else []), Done c)).
  { unfold wait_color, c. destruct sub_color; reflexivity. }
  rewrite Hwait, mbind_trace. cbn [fst snd].
  unfold mseq, io_seq. rewrite mbind_trace. unfold in_cycle, io_bind. cbn [fst snd].
  destruct (cycle detect_planes depth c) as [t1 [[] | e]]; cbn [fst snd].
  - destruct (main_loop detect_planes (map (observe sub_color) rest)) as [t2 r2].
    cbn [fst snd] in IHt, IHr |- *.
    rewrite !cycle_events_app, cycle_events_tagged, IHt.
    split; [| exact IHr].
    destruct sub_color; [rewrite cycle_events_sleeps |]; reflexivity.
  - rewrite !cycle_events_app, cycle_events_tagged.
    split; [| reflexivity].
    destruct sub_color; [rewrite cycle_events_sleeps |]; reflexivity.
Qed.

Lemma while_loop_fails_in_loop (sub_color : bool) (passes : list (Pass Image))
  (f : Failure) :
  snd (while_loop (Value := Value) detect_planes sub_color passes) = Failed f ->
  exists e, f = InLoop e.
Proof.
  destruct (while_loop_refines sub_color passes) as [_ ->].
  destruct (snd (main_loop _ _)) as [a | e]; [discriminate |].
  intros [= <-]. now exists e.
Qed.

Lemma while_loop_events (sub_color : bool) (passes : list (Pass Image)) :
  Forall (fun e : mevent => is_in_cycle e = true \/ (sub_color = true /\ e = Slept))
         (fst (while_loop detect_planes sub_color passes)).
Proof.
  induction passes as [| p rest IH]; [constructor |].
  destruct p as [| depth color_waits color]; [exact IH |].
  cbn [while_loop]. rewrite mbind_trace.
  assert (Hwait : Forall (fun e : mevent =>
                            is_in_cycle e = true \/ (sub_color = true /\ e = Slept))
                         (fst (wait_color (Value := Value) sub_color color_waits color))).
  { unfold wait_color. destruct sub_color; [| constructor]. cbn [fst].
    apply Forall_forall. intros e He. apply repeat_spec in He. now right. }
  assert (Hsnd : exists c, snd (wait_color (Image := Image) (Value := Value)
                                  sub_color color_waits color) = Done c).
  { unfold wait_color. destruct sub_color; eexists; reflexivity. }
  destruct Hsnd as [c ->]. cbn [fst snd].
  unfold mseq. rewrite mbind_trace.
  assert (Hcycle : Forall (fun e : mevent =>
                             is_in_cycle e = true \/ (sub_color = true /\ e = Slept))
                          (fst (in_cycle (Value := Value) (cycle detect_planes depth c)))).
  { unfold in_cycle. cbn [fst]. apply Forall_map. apply Forall_forall. now left. }
  destruct (snd (in_cycle (cycle detect_planes depth c))) as [[] | f]; cbn [fst].
  - apply Forall_app. split; [exact Hwait |]. apply Forall_app. now split.
  - apply Forall_app. now split.
Qed.

(** *** [main] is its setup followed by the loop *)

Lemma main_is_setup_then_loop
  (read_yaml_file : string -> external (Document Value))
  (args : Args) (passes : list (Pass Image)) :
  main detect_planes os_path_exists read_yaml_file args passes =
  mbind (setup os_path_exists read_yaml_file args)
        (fun sub_color => while_loop detect_planes sub_color passes).
Proof.
  unfold main, setup, read_config_file, getitem.
  destruct (String.eqb (color_topic args) ""); cbn [negb];
    (destruct (os_path_exists (config_file args)); cbn [negb]; [| reflexivity]);
    (destruct (read_yaml_file (config_file args)) as [[items |] | name];
       [| reflexivity | reflexivity]);
    cbn -[dict_get while_loop String.append];
    (destruct (dict_get "topic_colored_mask" items); [| reflexivity]);
    cbn -[dict_get while_loop String.append];
    (destruct (dict_get "topic_image_viz" items); [| reflexivity]);
    cbn -[dict_get while_loop String.append];
    (destruct (dict_get "topic_result" items); [| reflexivity]);
    cbn -[dict_get while_loop String.append];
    (destruct (dict_get "topic_pose" items); [| reflexivity]);
    cbn -[dict_get while_loop String.append];
    destruct (while_loop detect_planes _ passes) as [t r]; reflexivity.
Qed.

Ltac setup_event :=
  first [ exact I
        | split; [apply String.eqb_neq; assumption | reflexivity] ].

Ltac setup_done :=
  cbn -[dict_get String.append];
  split; [| split];
  [ repeat (apply Forall_cons; [setup_event |]); apply Forall_nil
  | let H := fresh in
    intros ? H; first [discriminate H | injection H as <-; reflexivity]
  | let H := fresh in intros ? H; discriminate H ].

Lemma setup_events_are_setup
  (read_yaml_file : string -> external (Document Value)) (args : Args) :
  Forall (is_setup_event args)
         (fst (setup (Image := Image) os_path_exists read_yaml_file args)) /\
  (forall sub_color,
     snd (setup (Image := Image) os_path_exists read_yaml_file args) = Done sub_color ->
     sub_color = negb (String.eqb (color_topic args) "")) /\
  (forall e, snd (setup (Image := Image) os_path_exists read_yaml_file args) <>
             Failed (InLoop e)).
Proof.
  unfold setup, read_config_file, getitem.
  destruct (String.eqb (color_topic args) "") eqn:Hcolor; cbn [negb];
    (destruct (os_path_exists (config_file args)); cbn [negb]; [| setup_done]);
    (destruct (read_yaml_file (config_file args)) as [[items |] | name];
       [| setup_done | setup_done]);
    cbn -[dict_get String.append];
    (destruct (dict_get "topic_colored_mask" items); [| setup_done]);
    cbn -[dict_get String.append];
    (destruct (dict_get "topic_image_viz" items); [| setup_done]);
    cbn -[dict_get String.append];
    (destruct (dict_get "topic_result" items); [| setup_done]);
    cbn -[dict_get String.append];
    (destruct (dict_get "topic_pose" items); [| setup_done]);
    setup_done.
Qed.

Lemma setup_events_outside_loop (args : Args) (t : list mevent) :
  Forall (is_setup_event args) t ->
  cycle_events t = [] /\ filter is_slept t = [] /\
  Forall (fun e => detect_color e = None) t.
Proof.
  induction 1 as [| e t He Ht (IHc & IHs & IHd)]; [repeat split; constructor |].
  destruct e; cbn in He |- *; try contradiction; repeat split; auto.
Qed.

Lemma main_trace
  (read_yaml_file : string -> external (Document Value))
  (args : Args) (passes : list (Pass Image)) :
  main detect_planes os_path_exists read_yaml_file args passes =
  match snd (setup (Image := Image) os_path_exists read_yaml_file args) with
  | Done sub_color =>
      (fst (setup os_path_exists read_yaml_file args) ++
       fst (while_loop detect_planes sub_color passes),
       snd (while_loop (Value := Value) detect_planes sub_color passes))
  | Failed f => (fst (setup os_path_exists read_yaml_file args), Failed f)
  end.
Proof.
  rewrite main_is_setup_then_loop. apply mbind_trace.
Qed.

(** *** Detector calls and sleeps in the loop *)

Lemma cycle_detect_color (depth : Image) (color : option Image) :
  Forall (fun e => match e with
                   | DetectPlanes _ c => c = color
                   | _ => True
                   end)
         (fst (cycle detect_planes depth color)).
Proof.
  destruct (detect_planes depth color) as [[planes mask] viz] eqn:Hdetect.
  rewrite (cycle_trace Image detect_planes _ _ _ _ _ Hdetect). cbv zeta. cbn [fst].
  rewrite print_result_events, publish_result_trace.
  apply Forall_app. split; [apply Forall_app; split |].
  - repeat constructor.
  - apply Forall_map. apply Forall_forall. intros numbered _. exact I.
  - destruct (PlanePosePublisher.message planes); repeat constructor.
Qed.

Lemma while_loop_detect_color (sub_color : bool) (passes : list (Pass Image)) :
  Forall (fun e : mevent => forall c, detect_color e = Some c -> has_color c = sub_color)
         (fst (while_loop detect_planes sub_color passes)).
Proof.
  induction passes as [| p rest IH]; [constructor |].
  destruct p as [| depth color_waits color]; [exact IH |].
  cbn [while_loop]. rewrite mbind_trace.
  set (c := if sub_color then Some color else None).
  assert (Hwait : wait_color (Value := Value) sub_color color_waits color =
                  ((if sub_color then repeat Slept color_waits else []), Done c)).
  { unfold wait_color, c. destruct sub_color; reflexivity. }
  rewrite Hwait. cbn [fst snd]. unfold mseq. rewrite mbind_trace.
  assert (Hsleeps : Forall (fun e : mevent =>
                              forall c0, detect_color e = Some c0 -> has_color c0 = sub_color)
                           (if sub_color then repeat Slept color_waits else [])).
  { destruct sub_color; [| constructor]. apply Forall_forall.
    intros e He. apply repeat_spec in He. subst e. discriminate. }
  assert (Hcycle : Forall (fun e : mevent =>
                             forall c0, detect_color e = Some c0 -> has_color c0 = sub_color)
                          (fst (in_cycle (Value := Value) (cycle detect_planes depth c)))).
  { unfold in_cycle. cbn [fst]. apply Forall_map.
    eapply Forall_impl; [| apply cycle_detect_color].
    intros e He c0. destruct e; cbn; try discriminate.
    intros [= <-]. rewrite He. unfold c. now destruct sub_color. }
  destruct (snd (in_cycle (cycle detect_planes depth c))) as [[] | f]; cbn [fst].
  - apply Forall_app. split; [exact Hsleeps |]. apply Forall_app. now split.
  - apply Forall_app. now split.
Qed.

Lemma filter_slept_repeat (n : nat) :
  filter is_slept (repeat (@Slept Image Value) n) = repeat Slept n.
Proof. induction n as [| n IH]; [reflexivity |]. cbn. now rewrite IH. Qed.

Lemma filter_slept_tagged (t : list (Event Image)) :
  filter is_slept (map (@InCycle Image Value) t) = [].
Proof. induction t as [| e t IH]; [reflexivity | exact IH]. Qed.

Lemma while_loop_sleeps (sub_color : bool) (passes : list (Pass Image)) :
  let run := while_loop (Value := Value) detect_planes sub_color passes in
  List.length (filter is_slept (fst run)) <=
    (if sub_color then total_waits passes else 0) /\
  (snd run = Done tt ->
   List.length (filter is_slept (fst run)) =
     (if sub_color then total_waits passes else 0)).
Proof.
  cbv zeta. induction passes as [| p rest [IHle IHeq]].
  - destruct sub_color; split; reflexivity.
  - destruct p as [| depth color_waits color].
    + cbn [while_loop]. unfold total_waits in *. cbn [map list_sum]. split; assumption.
    + cbn [while_loop]. rewrite mbind_trace.
      set (c := if sub_color then Some color else None).
      assert (Hwait : wait_color (Value := Value) sub_color color_waits color =
                      ((if sub_color then repeat Slept color_waits else []), Done c)).
      { unfold wait_color, c. destruct sub_color; reflexivity. }
      rewrite Hwait. cbn [fst snd]. unfold mseq. rewrite mbind_trace.
      unfold in_cycle. cbn [fst snd].
      assert (Hhead : List.length
                        (filter is_slept
                           (if sub_color then repeat (@Slept Image Value) color_waits
                            else [])) =
                      (if sub_color then color_waits else 0)).
      { destruct sub_color; [| reflexivity].
        now rewrite filter_slept_repeat, repeat_length. }
      assert (Htotal : (if sub_color
                        then total_waits (DepthReady depth color_waits color :: rest)
                        else 0) =
                       (if sub_color then color_waits else 0) +
                       (if sub_color then total_waits rest else 0)).
      { destruct sub_color; reflexivity. }
      rewrite Htotal.
      destruct (snd (cycle detect_planes depth c)) as [[] | e]; cbn [fst snd].
      * rewrite !filter_app, !length_app, filter_slept_tagged, Hhead. cbn [List.length].
        split; [lia |]. intros Hdone. rewrite (IHeq Hdone). lia.
      * rewrite !filter_app, !length_app, filter_slept_tagged, Hhead. cbn [List.length].
        split; [lia | discriminate].
Qed.

(** *** Startup failures *)

(** A missing configuration file is fatal at startup: [main] raises
    [RuntimeError] with the message that names the path, after it has
    created the detector and the subscribers and before it creates any
    publisher; no pass of the loop is made, whatever images are waiting. *)
Theorem main_without_config_file
  (read_yaml_file : string -> external (Document Value))
  (args : Args) (passes : list (Pass Image)) :
  os_path_exists (config_file args) = false ->
  main detect_planes os_path_exists read_yaml_file args passes =
  ([PlaneDetectorCreated (config_file args) (camera_info args);
    DepthImageSubscriberCreated (depth_topic args)] ++
   (if String.eqb (color_topic args) "" then []
    else [ColorImageSubscriberCreated (color_topic args)]),
   Failed (RuntimeError ("Config file doesn't exist: " ++ config_file args))).
Proof.
  intros Hmissing. unfold main, read_config_file. rewrite Hmissing.
  destruct (String.eqb (color_topic args) ""); reflexivity.
Qed.

(** A configuration that lacks one of the four topics is fatal at startup:
    [main] raises [KeyError] for the first key it does not find, reading
    them in the order [topic_colored_mask], [topic_image_viz],
    [topic_result], [topic_pose]; the loop is never entered, so no image is
    read and nothing is detected or published. *)
Theorem main_missing_topic
  (read_yaml_file : string -> external (Document Value))
  (args : Args) (passes : list (Pass Image))
  (items : list (string * Value)) (key : string) :
  os_path_exists (config_file args) = true ->
  read_yaml_file (config_file args) = Gives (Mapping items) ->
  first_missing items = Some key ->
  let run := main detect_planes os_path_exists read_yaml_file args passes in
  snd run = Failed (KeyError key) /\
  cycle_events (fst run) = [] /\
  filter is_slept (fst run) = [] /\
  run = main detect_planes os_path_exists read_yaml_file args [].
Proof.
  intros Hexists Hread Hmissing. cbv zeta.
  assert (Hsetup : snd (setup (Image := Image) os_path_exists read_yaml_file args) =
                   Failed (KeyError key)).
  { unfold setup, read_config_file, getitem. rewrite Hexists, Hread.
    unfold first_missing, topic_keys in Hmissing. cbn [find] in Hmissing.
    destruct (String.eqb (color_topic args) ""); cbn -[dict_get String.append];
      (destruct (dict_get "topic_colored_mask" items);
         [| injection Hmissing as <-; reflexivity]);
      cbn -[dict_get String.append];
      (destruct (dict_get "topic_image_viz" items);
         [| injection Hmissing as <-; reflexivity]);
      cbn -[dict_get String.append];
      (destruct (dict_get "topic_result" items);
         [| injection Hmissing as <-; reflexivity]);
      cbn -[dict_get String.append];
      (destruct (dict_get "topic_pose" items);
         [discriminate Hmissing | injection Hmissing as <-; reflexivity]). }
  rewrite !main_trace, Hsetup. cbn [fst snd].
  destruct (setup_events_are_setup read_yaml_file args) as (Hevents & _).
  destruct (setup_events_outside_loop args _ Hevents) as (Hc & Hs & _).
  repeat split; assumption.
Qed.

(** Whenever [main] ends with an exception that was not raised inside a
    cycle -- a missing file, an unreadable or malformed one, a document
    that is not a mapping, a missing key -- the loop was never entered: the
    trace holds setup events only and does not depend on the images that
    were waiting. *)
Theorem startup_failure_skips_loop
  (read_yaml_file : string -> external (Document Value))
  (args : Args) (passes : list (Pass Image)) (f : Failure) :
  snd (main detect_planes os_path_exists read_yaml_file args passes) = Failed f ->
  (forall e, f <> InLoop e) ->
  let run := main detect_planes os_path_exists read_yaml_file args passes in
  Forall (is_setup_event args) (fst run) /\
  cycle_events (fst run) = [] /\
  run = main detect_planes os_path_exists read_yaml_file args [].
Proof.
  cbv zeta. rewrite !main_trace.
  destruct (setup_events_are_setup read_yaml_file args) as (Hevents & _).
  destruct (setup_events_outside_loop args _ Hevents) as (Hc & _).
  destruct (snd (setup os_path_exists read_yaml_file args)) as [sub_color | f0].
  - cbn [snd]. intros Hloop Hf.
    destruct (while_loop_fails_in_loop sub_color passes f Hloop) as [e ->].
    now contradiction (Hf e).
  - intros _ _. repeat split; assumption.
Qed.

(** *** A complete configuration *)

(** With a configuration file that holds the four topics, [main] first
    performs its setup -- detector, subscribers, the log line, then the
    four publishers on the configured topics, in that order -- and after it
    nothing but sleeps and cycles.  The events of the cycles are exactly
    those of the loop body run over the observed frames, and [main] ends as
    that loop ends. *)
Theorem main_runs_loop
  (read_yaml_file : string -> external (Document Value))
  (args : Args) (passes : list (Pass Image))
  (items : list (string * Value))
  (topic_colored_mask topic_image_viz topic_result topic_pose : Value) :
  os_path_exists (config_file args) = true ->
  read_yaml_file (config_file args) = Gives (Mapping items) ->
  dict_get "topic_colored_mask" items = Some topic_colored_mask ->
  dict_get "topic_image_viz" items = Some topic_image_viz ->
  dict_get "topic_result" items = Some topic_result ->
  dict_get "topic_pose" items = Some topic_pose ->
  let run := main detect_planes os_path_exists read_yaml_file args passes in
  let sub_color := negb (String.eqb (color_topic args) "") in
  let loop := main_loop detect_planes (map (observe sub_color) passes) in
  exists in_loop : list mevent,
    fst run =
      setup_events args topic_colored_mask topic_image_viz topic_result topic_pose ++
      in_loop /\
    Forall (fun e => is_in_cycle e = true \/ e = Slept) in_loop /\
    cycle_events (fst run) = fst loop /\
    snd run = match snd loop with
              | Return a => Done a
              | Raise e => Failed (InLoop e)
              end.
Proof.
  intros Hexists Hread H1 H2 H3 H4. cbv zeta.
  assert (Hsetup : setup (Image := Image) os_path_exists read_yaml_file args =
                   (setup_events args topic_colored_mask topic_image_viz
                                 topic_result topic_pose,
                    Done (negb (String.eqb (color_topic args) "")))).
  { unfold setup, setup_events, read_config_file, getitem.
    rewrite Hexists, Hread.
    destruct (String.eqb (color_topic args) "");
      cbn -[dict_get String.append]; rewrite H1;
      cbn -[dict_get String.append]; rewrite H2;
      cbn -[dict_get String.append]; rewrite H3;
      cbn -[dict_get String.append]; rewrite H4; reflexivity. }
  rewrite main_trace, Hsetup. cbn [fst snd].
  set (sub_color := negb (String.eqb (color_topic args) "")).
  exists (fst (while_loop detect_planes sub_color passes)).
  destruct (while_loop_refines sub_color passes) as [Hevents Hsnd].
  split; [reflexivity |]. split.
  - eapply Forall_impl; [| apply while_loop_events].
    intros e [He | [_ He]]; [now left | now right].
  - split; [| exact Hsnd].
    rewrite cycle_events_app, Hevents.
    assert (Hpre : Forall (is_setup_event args)
                     (setup_events (Image := Image) args topic_colored_mask
                        topic_image_viz topic_result topic_pose)).
    { pose proof (setup_events_are_setup read_yaml_file args) as (Hall & _).
      rewrite Hsetup in Hall. exact Hall. }
    destruct (setup_events_outside_loop args _ Hpre) as (-> & _). reflexivity.
Qed.


(** *** With and without a colour topic *)

(** Without a colour topic (the default, an empty string) no colour
    subscriber is created, the server never sleeps, and every call of the
    detector is given [None] as its colour image. *)
Theorem depth_only_never_waits
  (read_yaml_file : string -> external (Document Value))
  (args : Args) (passes : list (Pass Image)) :
  color_topic args = ""%string ->
  Forall (fun e : mevent =>
            is_slept e = false /\
            (forall topic, e <> ColorImageSubscriberCreated topic) /\
            (forall c, detect_color e = Some c -> c = None))
         (fst (main detect_planes os_path_exists read_yaml_file args passes)).
Proof.
  intros Hcolor. rewrite main_trace.
  destruct (setup_events_are_setup read_yaml_file args) as (Hevents & Hflag & _).
  assert (Hsetup : Forall (fun e : mevent =>
                             is_slept e = false /\
                             (forall topic, e <> ColorImageSubscriberCreated topic) /\
                             (forall c, detect_color e = Some c -> c = None))
                          (fst (setup os_path_exists read_yaml_file args))).
  { eapply Forall_impl; [| exact Hevents].
    intros e He. destruct e; cbn in He |- *; try contradiction;
      repeat split; try discriminate.
    destruct He as [Hne _]. now contradiction Hne. }
  destruct (snd (setup os_path_exists read_yaml_file args)) as [sub_color | f];
    [| exact Hsetup].
  cbn [fst]. apply Forall_app. split; [exact Hsetup |].
  specialize (Hflag sub_color eq_refl). rewrite Hcolor in Hflag. cbn in Hflag.
  subst sub_color.
  pose proof (while_loop_events false passes) as Hkind.
  pose proof (while_loop_detect_color false passes) as Hdetect.
  rewrite Forall_forall in Hkind, Hdetect. apply Forall_forall. intros e He.
  destruct (Hkind e He) as [Hcycle | [Habs _]]; [| discriminate Habs].
  destruct e; try discriminate Hcycle. repeat split; try discriminate.
  intros c Hc. specialize (Hdetect _ He c Hc). now destruct c.
Qed.

(** With a colour topic every call of the detector is given a colour
    image, and the server sleeps once per failed poll of the colour
    subscriber: never more often than the frames it is shown ask for, and
    exactly as often when the run ends by shutdown. *)
Theorem color_polling_sleeps
  (read_yaml_file : string -> external (Document Value))
  (args : Args) (passes : list (Pass Image)) :
  color_topic args <> ""%string ->
  let run := main detect_planes os_path_exists read_yaml_file args passes in
  Forall (fun e : mevent => forall c, detect_color e = Some c -> c <> None) (fst run) /\
  List.length (filter is_slept (fst run)) <= total_waits passes /\
  (snd run = Done tt -> List.length (filter is_slept (fst run)) = total_waits passes).
Proof.
  intros Hcolor. cbv zeta. rewrite main_trace.
  destruct (setup_events_are_setup read_yaml_file args) as (Hevents & Hflag & _).
  destruct (setup_events_outside_loop args _ Hevents) as (_ & Hs & Hd).
  assert (Hsetup : Forall (fun e : mevent =>
                             forall c, detect_color e = Some c -> c <> None)
                          (fst (setup os_path_exists read_yaml_file args))).
  { eapply Forall_impl; [| exact Hd]. intros e He c Hc. rewrite He in Hc. discriminate Hc. }
  destruct (snd (setup os_path_exists read_yaml_file args)) as [sub_color | f].
  - specialize (Hflag sub_color eq_refl).
    apply String.eqb_neq in Hcolor. rewrite Hcolor in Hflag. cbn in Hflag. subst sub_color.
    cbn [fst snd]. rewrite filter_app, length_app, Hs. cbn [List.length Nat.add].
    destruct (while_loop_sleeps true passes) as [Hle Heq]. cbv zeta in Hle, Heq.
    split; [| split; assumption].
    apply Forall_app. split; [exact Hsetup |].
    eapply Forall_impl; [| apply while_loop_detect_color].
    intros e He c Hc. specialize (He c Hc). destruct c; [discriminate | discriminate He].
  - cbn [fst snd]. rewrite Hs. cbn [List.length].
    split; [exact Hsetup |]. split; [lia | discriminate].
Qed.

(** *** The script *)

(** The node is initialised before anything else, also before the
    arguments are parsed.  The closing warning is logged exactly when
    [main] returns, that is when the loop ends by shutdown: it is then the
    last event; after a failure of parsing, of startup or of a cycle it is
    never logged. *)
Theorem script_warns_on_return
  (read_yaml_file : string -> external (Document Value))
  (parsed : external Args) (passes : list (Pass Image)) :
  let run := script detect_planes os_path_exists read_yaml_file parsed passes in
  hd_error (fst run) = Some (InitNode "plane_detector_server") /\
  (snd run = Done tt ->
   exists before, fst run = before ++ [LogWarn "Node `plane_detector_server` stops."]) /\
  (forall f, snd run = Failed f -> Forall (fun e => forall msg, e <> LogWarn msg) (fst run)).
Proof.
  cbv zeta. unfold script, mseq. rewrite mbind_trace. cbn [memit fst snd].
  rewrite mbind_trace. unfold mlift. cbn [fst snd].
  split; [destruct parsed as [args | name]; reflexivity |].
  destruct parsed as [args | name]; cbn [of_external].
  - rewrite mbind_trace. rewrite main_trace.
    destruct (setup_events_are_setup read_yaml_file args) as (Hevents & _).
    assert (Hsetup : Forall (fun e : mevent => forall msg, e <> LogWarn msg)
                            (fst (setup os_path_exists read_yaml_file args))).
    { eapply Forall_impl; [| exact Hevents].
      intros e He msg. destruct e; cbn in He; try contradiction; discriminate. }
    destruct (snd (setup os_path_exists read_yaml_file args)) as [sub_color | f0].
    + cbn [fst snd].
      assert (Hloop : Forall (fun e : mevent => forall msg, e <> LogWarn msg)
                             (fst (while_loop detect_planes sub_color passes))).
      { eapply Forall_impl; [| apply while_loop_events].
        intros e [He | [_ ->]] msg; [| discriminate].
        destruct e; discriminate. }
      destruct (snd (while_loop detect_planes sub_color passes)) as [[] | f0];
        cbn [fst snd app].
      * split; [| discriminate]. intros _.
        exists (InitNode node_name ::
                fst (setup os_path_exists read_yaml_file args) ++
                fst (while_loop detect_planes sub_color passes)).
        reflexivity.
      * split; [discriminate |]. intros f _.
        constructor; [discriminate |]. apply Forall_app. now split.
    + cbn [fst snd app]. split; [discriminate |]. intros f _.
      constructor; [discriminate | exact Hsetup].
  - split; [discriminate |]. intros f _. repeat constructor. discriminate.
Qed.

End StartupProperties.

(** * The unit normal in binary64 *)

Section FlippedNormal.

Import SpecFloat.

Lemma binary_round_aux_negb (prec emax : Z) (s : bool) (m e : Z) (l : location) :
  binary_round_aux prec emax (negb s) m e l =
  SFopp (binary_round_aux prec emax s m e l).
Proof.
  unfold binary_round_aux.
  destruct (shr_fexp prec emax m e l) as [mrs' e'].
  destruct (shr_fexp prec emax _ e' loc_Exact) as [mrs'' e''].
  destruct (shr_m mrs'') as [| p | p]; cbn; [reflexivity | | reflexivity].
  destruct (e'' <=? emax - prec)%Z; reflexivity.
Qed.

Lemma mul_opp_opp (x : float) :
  PrimFloat.mul (PrimFloat.opp x) (PrimFloat.opp x) = PrimFloat.mul x x.
Proof.
  apply FloatAxioms.Prim2SF_inj.
  rewrite !FloatAxioms.mul_spec, !FloatAxioms.opp_spec.
  unfold FloatAxioms.SF64mul.
  destruct (Prim2SF x) as [s | s | | s m e]; cbn [SFmul SFopp];
    try destruct s; reflexivity.
Qed.

Lemma div_opp_l (x y : float) :
  PrimFloat.div (PrimFloat.opp x) y = PrimFloat.opp (PrimFloat.div x y).
Proof.
  apply FloatAxioms.Prim2SF_inj.
  rewrite FloatAxioms.opp_spec, !FloatAxioms.div_spec, FloatAxioms.opp_spec.
  unfold FloatAxioms.SF64div.
  destruct (Prim2SF x) as [sx | sx | | sx mx ex];
    destruct (Prim2SF y) as [sy | sy | | sy my ey]; cbn [SFdiv SFopp];
    try reflexivity; try (destruct sx, sy; reflexivity).
  destruct (SFdiv_core_binary FloatOps.prec FloatOps.emax (Z.pos mx) ex (Z.pos my) ey)
    as [[mz ez] lz].
  rewrite <- binary_round_aux_negb. destruct sx, sy; reflexivity.
Qed.

(** A plane seen from the other side: when the three selected weights
    change sign, the divisor of line 102 stays the same and every component
    of [v2] changes sign, exactly, in binary64 arithmetic (a NaN stays a
    NaN); [w[0]] and the weights after [w[3]] play no part. *)
Theorem v2_of_flipped_normal (w0 w0' n0 n1 n2 : float) (t t' : list float) :
  norm_of (PrimFloat.opp n0) (PrimFloat.opp n1) (PrimFloat.opp n2) = norm_of n0 n1 n2 /\
  PlanePosePublisher.v2
    (w0 :: PrimFloat.opp n0 :: PrimFloat.opp n1 :: PrimFloat.opp n2 :: t) =
  map PrimFloat.opp (PlanePosePublisher.v2 (w0' :: n0 :: n1 :: n2 :: t')).
Proof.
  assert (Hnorm : norm_of (PrimFloat.opp n0) (PrimFloat.opp n1) (PrimFloat.opp n2) =
                  norm_of n0 n1 n2).
  { unfold norm_of, Np.sum, Np.square. cbn [map fold_left].
    now rewrite !mul_opp_opp. }
  split; [exact Hnorm |].
  destruct (v2_four w0 (PrimFloat.opp n0) (PrimFloat.opp n1) (PrimFloat.opp n2) t)
    as [_ ->].
  destruct (v2_four w0' n0 n1 n2 t') as [_ ->].
  rewrite Hnorm. cbn [map]. now rewrite !div_opp_l.
Qed.

End FlippedNormal.

(** * The further properties on sample runs *)

Lemma position_matches_published_norms_witness :
  exists pos : Pose.t,
    @PlanePosePublisher.message FloatQuaternion.series_libs
      [Samples.plane_scaled; Samples.plane_b] = Return pos /\
    Pose.position pos = Pose.mkPoint 0 0 2 /\
    PyList.slice 1 4
      (PlanesResults.norms
         (PlaneResultsPublisher.message [Samples.plane_scaled; Samples.plane_b])) =
    [Pose.x (Pose.position pos); Pose.y (Pose.position pos); Pose.z (Pose.position pos)].
Proof.
  eexists. split; [reflexivity |]. split; [reflexivity |].
  apply (@position_matches_published_norms FloatQuaternion.series_libs
           [Samples.plane_scaled; Samples.plane_b]).
  reflexivity.
Defined.

Lemma loop_stops_at_first_failure_witness :
  let detect := fun depth color =>
    Samples.detector (match depth with
                      | 5 => [Samples.plane_a]
                      | _ => [Samples.plane_c]
                      end) depth color in
  let run := @main_loop nat FloatQuaternion.series_libs detect
               [DepthImage 5 None; NoDepthImage; DepthImage 6 None; DepthImage 5 None] in
  snd run = Raise IndexError /\
  List.length (publications (fst run)) = 7.
Proof.
  cbv zeta.
  destruct (@loop_stops_at_first_failure nat FloatQuaternion.series_libs
              (fun depth color =>
                 Samples.detector (match depth with
                                   | 5 => [Samples.plane_a]
                                   | _ => [Samples.plane_c]
                                   end) depth color)
              [DepthImage 5 None; NoDepthImage] [DepthImage 5 None] 6 None IndexError)
    as (Hsnd & _ & Hpub).
  - repeat constructor. eexists. reflexivity.
  - reflexivity.
  - split; [exact Hsnd |]. cbn [app] in Hpub. rewrite Hpub. reflexivity.
Defined.

Module StartupWitnesses.

Import Startup.

Lemma main_without_config_file_witness :
  Demo.os_path_exists (config_file Demo.args_elsewhere) = false /\
  Demo.run Demo.items Demo.args_elsewhere =
  ([PlaneDetectorCreated "missing.yaml" "config/cam_params.yaml";
    DepthImageSubscriberCreated "camera/depth"],
   Failed (RuntimeError "Config file doesn't exist: missing.yaml")).
Proof.
  split; [reflexivity |].
  apply (@main_without_config_file nat string FloatQuaternion.series_libs Demo.detect
           Demo.os_path_exists (Demo.read_yaml_file Demo.items)
           Demo.args_elsewhere Demo.passes).
  reflexivity.
Defined.

Lemma main_missing_topic_witness :
  first_missing Demo.items_no_result = Some "topic_result"%string /\
  snd (Demo.run Demo.items_no_result Demo.args_color) = Failed (KeyError "topic_result") /\
  cycle_events (fst (Demo.run Demo.items_no_result Demo.args_color)) = [].
Proof.
  split; [reflexivity |].
  destruct (@main_missing_topic nat string FloatQuaternion.series_libs Demo.detect
              Demo.os_path_exists (Demo.read_yaml_file Demo.items_no_result)
              Demo.args_color Demo.passes Demo.items_no_result "topic_result"%string
              eq_refl eq_refl eq_refl) as (Hsnd & Hevents & _).
  split; [exact Hsnd | exact Hevents].
Defined.

Lemma startup_failure_skips_loop_witness :
  snd (Demo.run Demo.items_no_result Demo.args_color) = Failed (KeyError "topic_result") /\
  Demo.run Demo.items_no_result Demo.args_color =
  @main nat string FloatQuaternion.series_libs Demo.detect
        Demo.os_path_exists (Demo.read_yaml_file Demo.items_no_result)
        Demo.args_color [].
Proof.
  split; [reflexivity |].
  apply (@startup_failure_skips_loop nat string FloatQuaternion.series_libs Demo.detect
           Demo.os_path_exists (Demo.read_yaml_file Demo.items_no_result)
           Demo.args_color Demo.passes (KeyError "topic_result")).
  - reflexivity.
  - intros e H. discriminate H.
Defined.

Lemma main_runs_loop_witness :
  let loop := @main_loop nat FloatQuaternion.series_libs Demo.detect
                [NoDepthImage; DepthImage 5 (Some 7); NoDepthImage; DepthImage 6 (Some 8)] in
  cycle_events (fst (Demo.run Demo.items Demo.args_color)) = fst loop /\
  snd (Demo.run Demo.items Demo.args_color) = Done tt /\
  List.length (publications (fst loop)) = 8.
Proof.
  destruct (@main_runs_loop nat string FloatQuaternion.series_libs Demo.detect
              Demo.os_path_exists (Demo.read_yaml_file Demo.items)
              Demo.args_color Demo.passes Demo.items
              "detect_plane/colored_mask"%string "detect_plane/image_viz"%string
              "detect_plane/results"%string "detect_plane/pose"%string
              eq_refl eq_refl eq_refl eq_refl eq_refl eq_refl)
    as (in_loop & _ & _ & Hevents & Hsnd).
  split; [exact Hevents |]. split; [exact Hsnd | reflexivity].
Defined.


Lemma depth_only_never_waits_witness :
  color_topic Demo.args_depth_only = ""%string /\
  filter is_slept (fst (Demo.run Demo.items Demo.args_depth_only)) = [] /\
  Forall (fun e => forall c, detect_color e = Some c -> c = None)
         (fst (Demo.run Demo.items Demo.args_depth_only)).
Proof.
  split; [reflexivity |]. split; [reflexivity |].
  eapply Forall_impl;
    [| exact (@depth_only_never_waits nat string FloatQuaternion.series_libs Demo.detect
                Demo.os_path_exists (Demo.read_yaml_file Demo.items)
                Demo.args_depth_only Demo.passes eq_refl)].
  intros e (_ & _ & He). exact He.
Defined.

Lemma color_polling_sleeps_witness :
  color_topic Demo.args_color <> ""%string /\
  total_waits Demo.passes = 2 /\
  List.length (filter is_slept (fst (Demo.run Demo.items Demo.args_color))) = 2.
Proof.
  assert (Hcolor : color_topic Demo.args_color <> ""%string) by discriminate.
  split; [exact Hcolor |]. split; [reflexivity |].
  destruct (@color_polling_sleeps nat string FloatQuaternion.series_libs Demo.detect
              Demo.os_path_exists (Demo.read_yaml_file Demo.items)
              Demo.args_color Demo.passes Hcolor) as (_ & _ & Heq).
  exact (Heq eq_refl).
Defined.

End StartupWitnesses.
